(** * Seq2Seq training tools (tools.py): shallow embedding and properties

    The development follows [Customize_Seq2Seq/runs/01_Teacher_Forcing/tools.py]:
    the teacher-forcing schedule ([cal_teacher_forcing_ratio]), the training
    loop and metrics of [Trainer], and the inference driver [Translation].

    Conventions.
    - Counts (steps, epochs, lengths, sequence sizes) are [nat].
    - Token ids are [Z].
    - Finite floating-point values are idealised as exact rationals kept in
      lowest terms ([Qred]); rounding is not modelled.  The special values that
      IEEE division produces ([nan], [inf]) are explicit constructors of
      [pyfloat], because the code's behaviour on a zero denominator depends on
      them.
    - Python exceptions are values of [exn]; effectful code lives in the
      writer/error monad [M], whose log records the observable calls (model
      invocations, checkpoint saves, log lines). *)

From Stdlib Require Import List String Ascii Bool Arith ZArith QArith Qreduction Lia.
From Stdlib Require Import DecimalString DecimalNat.
Import ListNotations.
Close Scope Q_scope.
Open Scope nat_scope.

Set Implicit Arguments.

(* ------------------------------------------------------------------ *)
(** ** Python-level preliminaries *)

Module Py.

(** The exceptions that the modelled code can raise. *)
Inductive exn : Type :=
| NotImplementedError
| KeyboardInterrupt
| ValueError
| IndexError
| ZeroDivisionError
| OverflowError
| UnboundLocalError
| RuntimeError.

Definition exn_eqb (a b : exn) : bool :=
  match a, b with
  | NotImplementedError, NotImplementedError
  | KeyboardInterrupt, KeyboardInterrupt
  | ValueError, ValueError
  | IndexError, IndexError
  | ZeroDivisionError, ZeroDivisionError
  | OverflowError, OverflowError
  | UnboundLocalError, UnboundLocalError
  | RuntimeError, RuntimeError => true
  | _, _ => false
  end.

(** Outcome of a call: a value or a raised exception. *)
Inductive result (A : Type) : Type :=
| Ok (a : A)
| Raise (e : exn).
Arguments Raise {A} e.

(** [l[i]] on a list, for a non-negative index. *)
Definition getitem {A} (l : list A) (i : nat) : result A :=
  match nth_error l i with
  | Some a => Ok a
  | None => Raise IndexError
  end.

(** [a % b] on non-negative integers. *)
Definition py_mod (a b : nat) : result nat :=
  match b with
  | O => Raise ZeroDivisionError
  | S _ => Ok (a mod b)
  end.

(** [l[i:j]] for non-negative [i], [j]: both bounds are clamped to the
    length, and the slice is empty when [j <= i]. *)
Definition slice {A} (l : list A) (i j : nat) : list A :=
  firstn (j - i) (skipn i l).

(** [range(0, stop, step)]: raises when [step] is zero, otherwise the
    multiples of [step] below [stop]. *)
Definition range_from0 (stop step : nat) : result (list nat) :=
  match step with
  | O => Raise ValueError
  | S _ => Ok (map (fun k => k * step) (seq 0 ((stop + step - 1) / step)))
  end.

(** [int(n / 2)] for a non-negative integer [n]: true division followed by
    truncation.  (Exact for every [n] below 2^53.) *)
Definition int_half (n : nat) : nat := n / 2.

(** Python and torch floating-point scalars. *)
Inductive pyfloat : Type :=
| Fin (q : Q)
| PInf
| NInf
| NaN.

Definition fadd (a b : pyfloat) : pyfloat :=
  match a, b with
  | NaN, _ | _, NaN => NaN
  | PInf, NInf | NInf, PInf => NaN
  | PInf, _ | _, PInf => PInf
  | NInf, _ | _, NInf => NInf
  | Fin x, Fin y => Fin (Qred (x + y))
  end.

(** Python's [x / n] for a float [x] and an integer count [n]:
    [ZeroDivisionError] when [n] is zero. *)
Definition truediv (x : pyfloat) (n : nat) : result pyfloat :=
  match n with
  | O => Raise ZeroDivisionError
  | S _ =>
      Ok match x with
         | Fin q => Fin (Qred (q / inject_Z (Z.of_nat n)))
         | other => other
         end
  end.

(** [torch.div(x, n)] for a float tensor scalar [x] holding a non-negative
    count and an integer [n]: IEEE division, which never raises. *)
Definition torch_div (x : nat) (n : nat) : pyfloat :=
  match n with
  | O => match x with O => NaN | S _ => PInf end
  | S _ => Fin (Qred (inject_Z (Z.of_nat x) / inject_Z (Z.of_nat n)))
  end.

End Py.
Import Py.

(** *** The writer/error monad of observable effects *)

Section Monad.
Variable event : Type.

Definition M (A : Type) : Type := (list event * result A)%type.

Definition ret {A} (a : A) : M A := ([], Ok a).

Definition bind {A B} (m : M A) (k : A -> M B) : M B :=
  match m with
  | (log, Ok a) => let (log', r) := k a in (log ++ log', r)
  | (log, Raise e) => (log, Raise e)
  end.

Definition emit (e : event) : M unit := ([e], Ok tt).

Definition raise {A} (e : exn) : M A := ([], Raise e).

Definition lift {A} (r : result A) : M A := ([], r).

(** [try: body except E: handler] *)
Definition try_except {A} (body : M A) (E : exn) (handler : M A) : M A :=
  match body with
  | (log, Raise e) =>
      if exn_eqb e E then let (log', r) := handler in (log ++ log', r)
      else (log, Raise e)
  | done => done
  end.

(** [if c: body] *)
Definition when (c : bool) (body : M unit) : M unit :=
  if c then body else ret tt.
End Monad.

Arguments ret {event A} a.
Arguments raise {event A} e.
Arguments lift {event A} r.
Arguments emit {event} e.
Arguments when {event} c body.

Declare Scope py_scope.
Delimit Scope py_scope with py.
Notation "x <~ m ; k" := (bind m (fun x => k))
  (at level 61, m at next level, right associativity) : py_scope.
Notation "m ;; k" := (bind m (fun _ => k))
  (at level 61, right associativity) : py_scope.

(* ------------------------------------------------------------------ *)
(** ** numpy.linspace *)

Module Numpy.

Definition qnat (n : nat) : Q := inject_Z (Z.of_nat n).

(** [y[-1] = v] on a non-empty array. *)
Definition set_last (y : list Q) (v : Q) : list Q :=
  match y with
  | [] => []
  | _ => removelast y ++ [v]
  end.

(** [np.linspace(start, stop, num=num)] with the default [endpoint=True]:
    [arange(num) * step + start] with [step = (stop - start) / (num - 1)],
    the last sample overwritten by [stop] when [num > 1].  With [num = 1]
    the divisor is zero and the only sample is [start]. *)
Definition linspace (start stop : Q) (num : nat) : list Q :=
  let div := num - 1 in
  let delta := (stop - start)%Q in
  let y := map qnat (seq 0 num) in
  let y :=
    if 0 <? div then
      let step := (delta / qnat div)%Q in
      if Qeq_bool step 0
      then map (fun v => (v / qnat div * delta)%Q) y
      else map (fun v => (v * step)%Q) y
    else map (fun v => (v * delta)%Q) y in
  let y := map (fun v => Qred (v + start)) y in
  if 1 <? num then set_last y stop else y.

End Numpy.

(* ------------------------------------------------------------------ *)
(** ** The teacher-forcing schedule *)

Definition Teacher_Forcing : string := "Teacher_Forcing"%string.
Definition Scheduled_Sampling : string := "Scheduled_Sampling"%string.
Definition Mixed_Sampling : string := "Mixed_Sampling"%string.

(** [[1.0 for _ in range(n)]] *)
Definition ones (n : nat) : list Q := map (fun _ => 1%Q) (seq 0 n).

Definition cal_teacher_forcing_ratio (learning_method : string) (total_step : nat)
  : result (list Q) :=
  if String.eqb learning_method Teacher_Forcing then
    Ok (ones total_step)
  else if String.eqb learning_method Scheduled_Sampling then
    Ok (rev (Numpy.linspace 0 1 total_step))
  else if String.eqb learning_method Mixed_Sampling then
    let teacher_forcing_ratios := ones (int_half total_step) in
    let b := rev (Numpy.linspace 0 1 (int_half total_step)) in
    Ok (teacher_forcing_ratios ++ b)
  else Raise NotImplementedError.

(* ------------------------------------------------------------------ *)
(** ** External collaborators and tensors *)

(** A sentencepiece vocabulary: [voc[piece]], [voc.IdToPiece(id)] and
    [voc.EncodeAsIds(text)]. *)
Record vocabulary : Type := {
  PieceToId : string -> Z;
  IdToPiece : Z -> string;
  EncodeAsIds : string -> list Z
}.

(** Integer tensors of shape [B, T] and logits flattened to [B*T, V]
    ([out.view(-1, out.size(-1))]). *)
Definition ids2d : Type := list (list Z).
Definition logits : Type := list (list Q).

(** One element of a data loader: [src_input, tar_input, tar_output]. *)
Record batch : Type := {
  src_input : ids2d;
  tar_input : ids2d;
  tar_output : ids2d
}.

(** Observable effects.  [EForward training src tar rate] is one invocation of
    the model; [training] is the mode set by [model.train()] / [model.eval()]. *)
Inductive event : Type :=
| EForward (training : bool) (src tar : ids2d) (teacher_forcing_rate : Q)
| ETrainLog (epoch i step : nat) (loss accuracy ppl : pyfloat)
| EValLog (epoch i step : nat) (loss accuracy ppl bleu : pyfloat)
| EPrint (line : string)
| ESave (epoch step : nat)
| EUpdate (step : nat).

Definition and_then {A B} (r : result A) (k : A -> result B) : result B :=
  match r with
  | Ok a => k a
  | Raise e => Raise e
  end.

Notation "'let!' x ':=' r 'in' k" := (and_then r (fun x => k))
  (at level 10, x pattern, r at level 100, k at level 200).

Fixpoint map_result {A B} (f : A -> result B) (l : list A) : result (list B) :=
  match l with
  | [] => Ok []
  | a :: l' =>
      let! b := f a in
      let! bs := map_result f l' in
      Ok (b :: bs)
  end.

(** [for x in xs: s = body(x, s)], stopping at the first exception. *)
Fixpoint for_each {A S} (xs : list A) (s : S) (body : A -> S -> M event S)
  : M event S :=
  match xs with
  | [] => ret s
  | x :: xs' => bind (body x s) (fun s' => for_each xs' s' body)
  end.

(** [enumerate(xs, 0)] *)
Definition enumerate {A} (xs : list A) : list (nat * A) :=
  combine (seq 0 (List.length xs)) xs.

Module Torch.

(** Index of the first maximal entry of a row at or after position [i],
    given the best entry so far. *)
Fixpoint argmax_from (row : list Q) (i : nat) (best : Q) (besti : nat) : nat :=
  match row with
  | [] => besti
  | x :: row' =>
      if Qlt_le_dec best x then argmax_from row' (S i) x i
      else argmax_from row' (S i) best besti
  end.

(** [row.max(-1)[1]]: a row without entries cannot be reduced. *)
Definition argmax (row : list Q) : result Z :=
  match row with
  | [] => Raise IndexError
  | x :: row' => Ok (Z.of_nat (argmax_from row' 1 x 0))
  end.

(** [out.max(-1)[1]] on logits of shape [N, V]. *)
Definition max_indices (out : logits) : result (list Z) :=
  map_result argmax out.

(** [a.eq(b)] on equally long vectors. *)
Definition eq (a b : list Z) : list bool :=
  map (fun p => Z.eqb (fst p) (snd p)) (combine a b).

(** [t.eq(v)] for a scalar [v]. *)
Definition eq_scalar (t : list Z) (v : Z) : list bool :=
  map (fun x => Z.eqb x v) t.

(** [t.masked_fill_(mask, value)] *)
Definition masked_fill (t mask : list bool) (value : bool) : list bool :=
  map (fun p => if snd p : bool then value else fst p) (combine t mask).

(** [t.long().sum()] on a boolean vector. *)
Definition sum (t : list bool) : nat := count_occ bool_dec t true.

End Torch.

(* ------------------------------------------------------------------ *)
(** ** tensor2sentence: ids to text *)

(** The pieces of [indices] up to, and excluding, the first one equal to
    [stop]: the [for idx in indices: ... break ... append] loop. *)
Fixpoint pieces_until (voc : vocabulary) (stop : string) (indices : list Z)
  : list string :=
  match indices with
  | [] => []
  | idx :: rest =>
      let word := IdToPiece voc idx in
      if String.eqb word stop then []
      else word :: pieces_until voc stop rest
  end.

Definition join (pieces : list string) : string :=
  fold_right String.append EmptyString pieces.

(* ------------------------------------------------------------------ *)
(** ** Trainer *)

(** The command-line arguments read by [Trainer]. *)
Record arguments : Type := {
  epochs : nat;
  learning_method : string;
  sequence_size : nat;
  train_step_print : nat;
  val_step_print : nat;
  step_save : nat
}.

(** Points of one training step at which an interrupt can be delivered. *)
Inductive phase : Type :=
| AtForward
| AtLoss
| AtTrainLog
| AtValidation
| AtSave
| AtUpdate.

Definition phase_eqb (a b : phase) : bool :=
  match a, b with
  | AtForward, AtForward | AtLoss, AtLoss | AtTrainLog, AtTrainLog
  | AtValidation, AtValidation | AtSave, AtSave | AtUpdate, AtUpdate => true
  | _, _ => false
  end.

(** Running totals of a validation pass, with the batch and output of the
    last iteration (the loop variables that stay bound after the loop). *)
Record val_state : Type := {
  total_loss : pyfloat;
  total_accuracy : pyfloat;
  total_ppl : pyfloat;
  count : nat;
  last_iter : option (batch * logits)
}.

Module Trainer.
Section Trainer.

Variable args : arguments.
Variables ko_voc en_voc : vocabulary.
(** The data loaders, as the batches one pass yields.  The sampler's
    permutation is not modelled. *)
Variables train_loader val_loader : list batch.
(** [model(src, tar, teacher_forcing_rate=rate)], output flattened. *)
Variable model : ids2d -> ids2d -> Q -> logits.
(** [nn.CrossEntropyLoss(ignore_index=pad)] on shape-compatible inputs. *)
Variable criterion : logits -> list Z -> pyfloat.
(** [math.exp], which raises [OverflowError] on large arguments. *)
Variable math_exp : pyfloat -> result pyfloat.
(** [s.replace(u, ' ').strip()], [u] the sentencepiece word mark U+2581. *)
Variable clean : string -> string.
(** [bleu.n_gram_precision] *)
Variable n_gram_precision : string -> string -> pyfloat.
(** Delivery of the external interrupt: [interrupt epoch i = Some p] when
    [KeyboardInterrupt] is raised at point [p] of the step on batch [i] of
    [epoch], inside the [try] block.  An interrupt that arrives while the
    loader fetches the next batch is outside the step and is not modelled. *)
Variable interrupt : nat -> nat -> option phase.

Definition en_pad : Z := PieceToId en_voc "<pad>"%string.

(** [self.criterion(out, tar)]: the batch dimensions must agree. *)
Definition cross_entropy (out : logits) (tar : list Z) : result pyfloat :=
  if List.length out =? List.length tar then Ok (criterion out tar)
  else Raise ValueError.

(** The [for i in invalid_targets: if i == 0: total += 1] loop. *)
Definition count_valid (invalid_targets : list bool) : nat :=
  fold_left (fun total i => if Bool.eqb i false then total + 1 else total)
            invalid_targets 0.

Definition loss_accuracy (out : logits) (tar : list Z)
  : result (pyfloat * pyfloat * pyfloat) :=
  let! loss := cross_entropy out tar in
  let! ppl := math_exp loss in
  let! indices := Torch.max_indices out in
  let invalid_targets := Torch.eq_scalar tar en_pad in
  let equal := Torch.eq indices tar in
  let total := count_valid invalid_targets in
  let accuracy :=
    torch_div (Torch.sum (Torch.masked_fill equal invalid_targets false)) total in
  Ok (loss, accuracy, ppl).

Definition tensor2sentence_en (indices : list Z) : list string :=
  [clean (join (pieces_until en_voc "</s>"%string indices))].

Definition tensor2sentence_ko (indices : list Z) : list string :=
  [clean (join (pieces_until ko_voc "<pad>"%string indices))].

Definition val_init : val_state :=
  {| total_loss := Fin 0; total_accuracy := Fin 0; total_ppl := Fin 0;
     count := 0; last_iter := None |}.

(** Body of the loop over [self.val_loader]. *)
Definition val_batch (teacher_forcing_rate : Q) (data : batch) (st : val_state)
  : M event val_state :=
  (emit (EForward false (src_input data) (tar_input data) teacher_forcing_rate) ;;
   let output := model (src_input data) (tar_input data) teacher_forcing_rate in
   r <~ lift (loss_accuracy output (List.concat (tar_output data))) ;
   let '(loss, accuracy, ppl) := r in
   ret {| total_loss := fadd (total_loss st) loss;
          total_accuracy := fadd (total_accuracy st) accuracy;
          total_ppl := fadd (total_ppl st) ppl;
          count := count st + 1;
          last_iter := Some (data, output) |})%py.

Definition val (teacher_forcing_rate : Q)
  : M event (pyfloat * pyfloat * pyfloat * pyfloat) :=
  (st <~ for_each val_loader val_init (val_batch teacher_forcing_rate) ;
   match last_iter st with
   | None => raise UnboundLocalError
   | Some (data, output) =>
       indices <~ lift (Torch.max_indices output) ;
       let indices := firstn (sequence_size args) indices in
       a <~ lift (getitem (src_input data) 0) ;
       b <~ lift (getitem (tar_output data) 0) ;
       let output_sentence := tensor2sentence_en indices in
       let target_sentence := tensor2sentence_en b in
       o0 <~ lift (getitem output_sentence 0) ;
       t0 <~ lift (getitem target_sentence 0) ;
       let bleu_score := n_gram_precision o0 t0 in
       emit (EPrint (join ("Korean: "%string :: tensor2sentence_ko a))) ;;
       emit (EPrint (join ("Predicted : "%string :: output_sentence))) ;;
       emit (EPrint (join ("Target :"%string :: target_sentence))) ;;
       emit (EPrint "BLEU Score : "%string) ;;
       avg_loss <~ lift (truediv (total_loss st) (count st)) ;
       avg_accuracy <~ lift (truediv (total_accuracy st) (count st)) ;
       avg_ppl <~ lift (truediv (total_ppl st) (count st)) ;
       ret (avg_loss, avg_accuracy, avg_ppl, bleu_score)
   end)%py.

(** [torch.save] of the checkpoint named after [step]. *)
Definition model_save (epoch step : nat) : M event unit :=
  emit (ESave epoch step).

(** The interrupt, if it is due at point [p] of this batch. *)
Definition interrupt_point (epoch i : nat) (p : phase) : M event unit :=
  match interrupt epoch i with
  | Some q => if phase_eqb p q then raise KeyboardInterrupt else ret tt
  | None => ret tt
  end.

(** The body of the [try] block of one training step; returns the updated
    [step]. *)
Definition train_step (train_ratios val_ratios : list Q)
           (epoch i : nat) (data : batch) (step : nat) : M event nat :=
  (interrupt_point epoch i AtForward ;;
   rate <~ lift (getitem train_ratios i) ;
   emit (EForward true (src_input data) (tar_input data) rate) ;;
   let output := model (src_input data) (tar_input data) rate in
   interrupt_point epoch i AtLoss ;;
   r <~ lift (loss_accuracy output (List.concat (tar_output data))) ;
   let '(loss, accuracy, ppl) := r in
   r1 <~ lift (py_mod step (train_step_print args)) ;
   when (r1 =? 0)
     (interrupt_point epoch i AtTrainLog ;;
      emit (ETrainLog epoch i step loss accuracy ppl)) ;;
   r2 <~ lift (py_mod step (val_step_print args)) ;
   when (r2 =? 0)
     (interrupt_point epoch i AtValidation ;;
      let steps :=
        if val_step_print args <=? step then step / val_step_print args
        else step in
      vr <~ lift (getitem val_ratios steps) ;
      v <~ val vr ;
      let '(val_loss, val_accuracy, val_ppl, val_bleu) := v in
      emit (EValLog epoch i step val_loss val_accuracy val_ppl val_bleu)) ;;
   r3 <~ lift (py_mod step (step_save args)) ;
   when (r3 =? 0)
     (interrupt_point epoch i AtSave ;;
      emit (EPrint "time :"%string) ;;
      model_save epoch step) ;;
   interrupt_point epoch i AtUpdate ;;
   emit (EUpdate step) ;;
   ret (step + 1))%py.

(** [try: <step> except KeyboardInterrupt: self.model_save(...)] *)
Definition guarded_step (train_ratios val_ratios : list Q)
           (epoch : nat) (item : nat * batch) (step : nat) : M event nat :=
  try_except (train_step train_ratios val_ratios epoch (fst item) (snd item) step)
             KeyboardInterrupt
             (model_save epoch step ;; ret step)%py.

(** The loop over [enumerate(self.train_loader, 0)] of one epoch. *)
Definition train_epoch (train_ratios val_ratios : list Q)
           (epoch : nat) (step : nat) : M event nat :=
  for_each (enumerate train_loader) step
           (guarded_step train_ratios val_ratios epoch).

Definition train : M event unit :=
  (let epoch_step := List.length train_loader + 1 in
   let total_step := epochs args * epoch_step in
   train_ratios <~ lift (cal_teacher_forcing_ratio (learning_method args) total_step) ;
   val_ratios <~ lift (cal_teacher_forcing_ratio Teacher_Forcing (total_step / 100 + 1)) ;
   let step := 0 in
   for_each (seq 0 (epochs args)) step (train_epoch train_ratios val_ratios) ;;
   ret tt)%py.

End Trainer.
End Trainer.

(* ------------------------------------------------------------------ *)
(** ** Translation *)

Module Translation.
Section Translation.

(** [self.checkpoint['seq_len']] *)
Variable seq_len : nat.
Variables ko_voc en_voc : vocabulary.
(** The loaded model in evaluation mode, output flattened to [B*T, V]. *)
Variable model : ids2d -> ids2d -> Q -> logits.
Variable clean : string -> string.
(** The lines of the files at [self.x_path] and [self.y_path]. *)
Variables x_file y_file : list string.

Definition batch_size : nat := 100.

Definition padding (idx_list : list Z) (padding_id : Z) : list Z :=
  let length := List.length idx_list in
  if length <? seq_len then
    idx_list ++ map (fun _ => padding_id) (seq 0 (seq_len - List.length idx_list))
  else
    firstn seq_len idx_list.

(** [torch.tensor([idx_list])]: one row. *)
Definition src_input (sentence : string) : ids2d :=
  let idx_list := EncodeAsIds ko_voc sentence in
  let idx_list := padding idx_list (PieceToId ko_voc "<pad>"%string) in
  [idx_list].

Definition tar_input : ids2d :=
  let idx_list := [PieceToId en_voc "<s>"%string] in
  let idx_list := padding idx_list (PieceToId ko_voc "<pad>"%string) in
  [idx_list].

Definition tensor2sentence (indices : list Z) : string :=
  clean (join (pieces_until en_voc "</s>"%string indices)).

Definition get_test_loader : list string * list string :=
  let src_list := x_file in
  let tar_list := y_file in
  (slice src_list 0 batch_size, slice tar_list 0 batch_size).

(** [torch.stack(rows).squeeze(dim=1)]: stacking needs at least one row. *)
Definition stack_squeeze (rows : list ids2d) : result ids2d :=
  match rows with
  | [] => Raise RuntimeError
  | _ => Ok (List.concat rows)
  end.

Definition transform (sentence : string) : M event unit :=
  (let src := src_input sentence in
   let tar := tar_input in
   emit (EForward false src tar 0) ;;
   let output := model src tar 0 in
   indices <~ lift (Torch.max_indices output) ;
   let pred := tensor2sentence indices in
   emit (EPrint (String.append "Korean: "%string sentence)) ;;
   emit (EPrint (String.append "Predict: "%string pred)))%py.

(** The [for i in range(0, len(indices), self.seq_len)] loop: the id slices
    handed to [tensor2sentence], one per row. *)
Definition row_slices (indices : list Z) : result (list (list Z)) :=
  let! starts := range_from0 (List.length indices) seq_len in
  Ok (map (fun i => let end_ := i + seq_len - 1 in slice indices i end_) starts).

Fixpoint zip3 {A B C} (a : list A) (b : list B) (c : list C) : list (A * B * C) :=
  match a, b, c with
  | x :: a', y :: b', z :: c' => (x, y, z) :: zip3 a' b' c'
  | _, _, _ => []
  end.

Definition batch_transform : M event unit :=
  (let '(src_list, tar_list) := get_test_loader in
   if batch_size <? List.length src_list then raise ValueError
   else
     src_inputs <~ lift (stack_squeeze (map src_input src_list)) ;
     tar_inputs <~ lift (stack_squeeze (map (fun _ => tar_input) src_list)) ;
     emit (EForward false src_inputs tar_inputs 0) ;;
     let output := model src_inputs tar_inputs 0 in
     indices <~ lift (Torch.max_indices output) ;
     slices <~ lift (row_slices indices) ;
     let result := map tensor2sentence slices in
     for_each (zip3 src_list tar_list result) tt
       (fun t _ =>
          let '(src, tar, pred) := t in
          emit (EPrint (String.append "Korean: "%string src)) ;;
          emit (EPrint (String.append "English: "%string tar)) ;;
          emit (EPrint (String.append "Predict: "%string pred)) ;;
          emit (EPrint "-------------------------"%string)))%py.

End Translation.
End Translation.

(* ------------------------------------------------------------------ *)
(** ** A toy instance: five-piece vocabulary, constant model *)

Module Toy.

Definition piece_id (piece : string) : Z :=
  if String.eqb piece "<pad>"%string then 0
  else if String.eqb piece "<s>"%string then 1
  else if String.eqb piece "</s>"%string then 2
  else if String.eqb piece "a"%string then 3
  else 4.

Definition id_piece (id : Z) : string :=
  match id with
  | 0%Z => "<pad>"%string
  | 1%Z => "<s>"%string
  | 2%Z => "</s>"%string
  | 3%Z => "a"%string
  | _ => "b"%string
  end.

(** Every character of the text is one piece: [a] is 3, the others 4. *)
Definition encode (text : string) : list Z :=
  map (fun c => if Ascii.eqb c "a"%char then 3%Z else 4%Z)
      (list_ascii_of_string text).

Definition voc : vocabulary :=
  {| PieceToId := piece_id; IdToPiece := id_piece; EncodeAsIds := encode |}.

(** A model that predicts piece 3 and then the end piece, alternately, at
    the positions of every row of [tar]. *)
Definition row_logits (t : nat) : list Q :=
  if Nat.even t then [0; 0; 0; 1; 0]%Q else [0; 0; 1; 0; 0]%Q.

Definition model (src tar : ids2d) (rate : Q) : logits :=
  List.concat (map (fun row => map row_logits (seq 0 (List.length row))) tar).

(** As torch does: the mean over no position is [nan]. *)
Definition criterion (out : logits) (tar : list Z) : pyfloat :=
  if forallb (fun t => Z.eqb t 0) tar then NaN else Fin (1 # 2).

(** A stand-in for [math.exp] with its overflow behaviour. *)
Definition math_exp (x : pyfloat) : result pyfloat :=
  match x with
  | Fin q => if Qle_bool 710 q then Raise OverflowError else Ok (Fin (Qred (1 + q)))
  | PInf => Ok PInf
  | NInf => Ok (Fin 0)
  | NaN => Ok NaN
  end.

Definition clean (s : string) : string := s.

Definition n_gram_precision (pred target : string) : pyfloat :=
  if String.eqb pred target then Fin 1 else Fin 0.

Definition b0 : batch :=
  {| src_input := [[3; 0]%Z]; tar_input := [[1; 3]%Z]; tar_output := [[3; 2]%Z] |}.
Definition b1 : batch :=
  {| src_input := [[4; 3]%Z]; tar_input := [[1; 4]%Z]; tar_output := [[4; 3]%Z] |}.
(** A batch whose targets are all padding. *)
Definition b_pad : batch :=
  {| src_input := [[3; 0]%Z]; tar_input := [[1; 0]%Z]; tar_output := [[0; 0]%Z] |}.

Definition args (method : string) (n_epochs : nat) : arguments :=
  {| epochs := n_epochs; learning_method := method; sequence_size := 2;
     train_step_print := 1000; val_step_print := 1000; step_save := 1000 |}.

Definition no_interrupt (epoch i : nat) : option phase := None.

(** The interrupt arrives in the first batch of the first epoch, during
    the parameter update. *)
Definition interrupt_first (epoch i : nat) : option phase :=
  if (epoch =? 0) && (i =? 0) then Some AtUpdate else None.

Definition train (method : string) (n_epochs : nat)
           (interrupt : nat -> nat -> option phase) : M event unit :=
  Trainer.train (args method n_epochs) voc voc [b0; b1] [b0]
                model criterion math_exp clean n_gram_precision interrupt.

(** The teacher-forcing rates of the training-mode forward passes of a log. *)
Fixpoint training_rates (log : list event) : list Q :=
  match log with
  | [] => []
  | EForward true _ _ rate :: log' => rate :: training_rates log'
  | _ :: log' => training_rates log'
  end.

Definition lines (n : nat) : list string := map (fun _ => "ab"%string) (seq 0 n).

Definition batch_transform (n_lines : nat) : M event unit :=
  Translation.batch_transform 3 voc voc model clean (lines n_lines) (lines n_lines).

(** The number of source rows of every model invocation of a log. *)
Fixpoint forward_rows (log : list event) : list nat :=
  match log with
  | [] => []
  | EForward _ src _ _ :: log' => List.length src :: forward_rows log'
  | _ :: log' => forward_rows log'
  end.

End Toy.

(* ------------------------------------------------------------------ *)
(** ** The schedule as the specification words it *)

(** The mixed schedule as the concatenation of a constant schedule over the
    first half and a descending one over the remaining points. *)
Definition spec_mixed_schedule (n : nat) : result (list Q) :=
  let! first := cal_teacher_forcing_ratio Teacher_Forcing (n / 2) in
  let! second := cal_teacher_forcing_ratio Scheduled_Sampling (n - n / 2) in
  Ok (first ++ second).

(** Metric aggregation as the specification words it: the sum of the batch
    values divided by their number. *)
Definition fsum (l : list pyfloat) : pyfloat := fold_right fadd (Fin 0) l.

Definition unweighted_mean (l : list pyfloat) : pyfloat :=
  match fsum l with
  | Fin q => Fin (Qred (q / inject_Z (Z.of_nat (List.length l))))
  | other => other
  end.

Definition qsum (l : list Q) : Q := fold_right Qplus 0%Q l.

(** The three scalars [loss_accuracy] returns for one batch. *)
Definition loss_of (s : pyfloat * pyfloat * pyfloat) : pyfloat := fst (fst s).
Definition accuracy_of (s : pyfloat * pyfloat * pyfloat) : pyfloat := snd (fst s).
Definition ppl_of (s : pyfloat * pyfloat * pyfloat) : pyfloat := snd s.

(** Batch [data] of a validation pass is scored [s] without an exception,
    and has a first row. *)
Definition scored (en_voc : vocabulary) (model : ids2d -> ids2d -> Q -> logits)
           (criterion : logits -> list Z -> pyfloat)
           (math_exp : pyfloat -> result pyfloat) (rate : Q)
           (data : batch) (s : pyfloat * pyfloat * pyfloat) : Prop :=
  Trainer.loss_accuracy en_voc criterion math_exp
    (model (src_input data) (tar_input data) rate)
    (List.concat (tar_output data)) = Ok s
  /\ src_input data <> []
  /\ tar_output data <> [].

(* ------------------------------------------------------------------ *)
(** ** Checkpoint file names *)

(** The decimal digits of a non-negative integer. *)
Definition decimal (n : nat) : string := NilZero.string_of_uint (Nat.to_uint n).

Fixpoint zeros (k : nat) : string :=
  match k with
  | O => EmptyString
  | S k' => String "0"%char (zeros k')
  end.

(** ['{0:0wd}'.format(n)] for a non-negative [n]: the digits, filled with
    zeros on the left up to [width] characters. *)
Definition format_zero_filled (width n : nat) : string :=
  String.append (zeros (width - String.length (decimal n))) (decimal n).

(** The file name of [model_save]: ['{0:06d}_model_1.pth'.format(step)]. *)
Definition model_name (step : nat) : string :=
  String.append (format_zero_filled 6 step) "_model_1.pth"%string.

(** The number a string of decimal digits denotes. *)
Definition digits_value (s : string) : option nat :=
  option_map Nat.of_uint (NilEmpty.uint_of_string s).

(* ================================================================== *)
(** * Properties *)

(** ** Schedule *)

Lemma ones_repeat (n : nat) : ones n = repeat 1%Q n.
Proof.
  unfold ones. generalize 0 as start.
  induction n as [|n IH]; intros start; simpl; [reflexivity|].
  now rewrite IH.
Qed.

Lemma ones_length (n : nat) : List.length (ones n) = n.
Proof. rewrite ones_repeat. apply repeat_length. Qed.

Lemma set_last_length (y : list Q) (v : Q) :
  List.length (Numpy.set_last y v) = List.length y.
Proof.
  destruct y as [|a y]; [reflexivity|].
  unfold Numpy.set_last. rewrite length_app.
  assert (H : a :: y <> []) by discriminate.
  destruct (exists_last H) as [front [z E]]. rewrite E.
  rewrite removelast_last, length_app. reflexivity.
Qed.

Lemma linspace_length (start stop : Q) (num : nat) :
  List.length (Numpy.linspace start stop num) = num.
Proof.
  unfold Numpy.linspace.
  destruct (1 <? num); [rewrite set_last_length|];
    destruct (0 <? num - 1); try destruct (Qeq_bool _ _);
    now rewrite !length_map, length_seq.
Qed.

Lemma nth_map_seq {A} (f : nat -> A) (m i : nat) (d : A) :
  i < m -> nth i (map f (seq 0 m)) d = f i.
Proof.
  intros Hi.
  rewrite (nth_indep _ d (f 0)) by now rewrite length_map, length_seq.
  rewrite map_nth, seq_nth by assumption. reflexivity.
Qed.

Lemma set_last_nth (y : list Q) (v d : Q) (i : nat) :
  i < List.length y ->
  nth i (Numpy.set_last y v) d = if i =? List.length y - 1 then v else nth i y d.
Proof.
  intros Hi. destruct y as [|a y]; [simpl in Hi; lia|].
  assert (H : a :: y <> []) by discriminate.
  destruct (exists_last H) as [front [z E]].
  unfold Numpy.set_last. rewrite E in *. clear E H.
  rewrite removelast_last. rewrite length_app in *. simpl in *.
  replace (List.length front + 1 - 1) with (List.length front) by lia.
  destruct (Nat.eqb_spec i (List.length front)) as [->|Hne].
  - rewrite app_nth2, Nat.sub_diag by lia. reflexivity.
  - rewrite !app_nth1 by lia. reflexivity.
Qed.

Lemma qnat_nonzero (n : nat) : 0 < n -> ~ (Numpy.qnat n == 0)%Q.
Proof.
  intros Hn H. unfold Numpy.qnat, Qeq in H. simpl in H. lia.
Qed.

Lemma qnat_sub (a b : nat) :
  b <= a -> (Numpy.qnat (a - b) == Numpy.qnat a - Numpy.qnat b)%Q.
Proof.
  intros Hle. unfold Numpy.qnat.
  rewrite Nat2Z.inj_sub by assumption.
  unfold Qeq, Qminus, Qplus, Qopp. simpl. lia.
Qed.

(** Sample [i] of [np.linspace(0.0, 1.0, num=m)] is [i / (m - 1)]. *)
Lemma linspace01_nth (m i : nat) :
  2 <= m -> i < m ->
  (nth i (Numpy.linspace 0 1 m) 0 == Numpy.qnat i / Numpy.qnat (m - 1))%Q.
Proof.
  intros Hm Hi.
  pose proof (@qnat_nonzero (m - 1) ltac:(lia)) as Hnz.
  unfold Numpy.linspace.
  replace (1 <? m) with true by (symmetry; apply Nat.ltb_lt; lia).
  replace (0 <? m - 1) with true by (symmetry; apply Nat.ltb_lt; lia).
  rewrite set_last_nth;
    [|destruct (Qeq_bool _ _); now rewrite !length_map, length_seq].
  replace (List.length _) with m
    by (destruct (Qeq_bool _ _); now rewrite !length_map, length_seq).
  destruct (Nat.eqb_spec i (m - 1)) as [->|Hne].
  - field. exact Hnz.
  - destruct (Qeq_bool _ _); rewrite !map_map, nth_map_seq by assumption;
      rewrite Qred_correct; field; exact Hnz.
Qed.

Lemma linspace01_first (m : nat) :
  2 <= m -> nth 0 (Numpy.linspace 0 1 m) 0%Q = 0%Q.
Proof.
  intros Hm. unfold Numpy.linspace.
  replace (1 <? m) with true by (symmetry; apply Nat.ltb_lt; lia).
  replace (0 <? m - 1) with true by (symmetry; apply Nat.ltb_lt; lia).
  rewrite set_last_nth;
    [|destruct (Qeq_bool _ _); rewrite !length_map, length_seq; lia].
  replace (List.length _) with m
    by (destruct (Qeq_bool _ _); now rewrite !length_map, length_seq).
  replace (0 =? m - 1) with false by (symmetry; apply Nat.eqb_neq; lia).
  pose proof (@qnat_nonzero (m - 1) ltac:(lia)) as Hnz.
  destruct (Qeq_bool _ _); rewrite !map_map, nth_map_seq by lia;
    change 0%Q with (Qred 0) at -1; apply Qred_complete;
    unfold Numpy.qnat at 1; simpl; field; exact Hnz.
Qed.

Lemma linspace01_last (m : nat) :
  2 <= m -> nth (m - 1) (Numpy.linspace 0 1 m) 0%Q = 1%Q.
Proof.
  intros Hm. unfold Numpy.linspace.
  replace (1 <? m) with true by (symmetry; apply Nat.ltb_lt; lia).
  rewrite set_last_nth;
    [|destruct (0 <? m - 1); try destruct (Qeq_bool _ _);
      rewrite !length_map, length_seq; lia].
  replace (List.length _) with m
    by (destruct (0 <? m - 1); try destruct (Qeq_bool _ _);
        now rewrite !length_map, length_seq).
  now rewrite Nat.eqb_refl.
Qed.

(** Entry [i] of the descending schedule over [m >= 2] points is
    [1 - i / (m - 1)]. *)
Lemma descending_nth (m i : nat) :
  2 <= m -> i < m ->
  (nth i (rev (Numpy.linspace 0 1 m)) 0 == 1 - Numpy.qnat i / Numpy.qnat (m - 1))%Q.
Proof.
  intros Hm Hi.
  rewrite rev_nth by now rewrite linspace_length.
  rewrite linspace_length, linspace01_nth by lia.
  replace (m - S i) with (m - 1 - i) by lia.
  rewrite qnat_sub by lia.
  field. apply qnat_nonzero. lia.
Qed.

(** C5 on the code.  Both halves of the Mixed_Sampling schedule are built
    over [int(total_step / 2)] points, so for an odd step count the schedule
    is one entry short of [total_step], unlike the Teacher_Forcing and
    Scheduled_Sampling schedules, which have exactly [total_step] entries.
    For [n = 3] the code yields the two entries [1.0, 0.0], while the
    concatenation of the constant schedule over [3 // 2] points and the
    descending schedule over [3 - 3 // 2] points has the three entries
    [1.0, 1.0, 0.0]. *)
Theorem mixed_schedule_odd_one_short :
  cal_teacher_forcing_ratio Mixed_Sampling 3 = Ok [1; 0]%Q
  /\ spec_mixed_schedule 3 = Ok [1; 1; 0]%Q
  /\ cal_teacher_forcing_ratio Mixed_Sampling 3 <> spec_mixed_schedule 3
  /\ cal_teacher_forcing_ratio Teacher_Forcing 3 = Ok [1; 1; 1]%Q
  /\ cal_teacher_forcing_ratio Scheduled_Sampling 3 = Ok [1; 1 # 2; 0]%Q
  /\ forall k : nat,
       exists l : list Q,
         cal_teacher_forcing_ratio Mixed_Sampling (2 * k + 1) = Ok l
         /\ List.length l = 2 * k.
Proof.
  split; [reflexivity|]. split; [reflexivity|].
  split; [vm_compute; discriminate|].
  split; [reflexivity|]. split; [reflexivity|].
  intros k. eexists. split; [reflexivity|].
  rewrite length_app, ones_length, length_rev, linspace_length.
  unfold int_half.
  replace (2 * k + 1) with (1 + k * 2) by lia.
  rewrite Nat.div_add by discriminate. simpl. lia.
Qed.

(** The shape of the Mixed_Sampling schedule in the rational model: the
    Teacher_Forcing schedule over [n // 2] points followed by the
    Scheduled_Sampling schedule over [n // 2] points, of length
    [2 * (n // 2)]; a second part of at least two points starts at 1.0, ends
    at 0.0 and has the entry [1 - i / (n // 2 - 1)] at position [i]. *)
Theorem mixed_schedule_halves (n : nat) :
  exists first second : list Q,
    cal_teacher_forcing_ratio Teacher_Forcing (n / 2) = Ok first
    /\ cal_teacher_forcing_ratio Scheduled_Sampling (n / 2) = Ok second
    /\ cal_teacher_forcing_ratio Mixed_Sampling n = Ok (first ++ second)
    /\ List.length (first ++ second) = 2 * (n / 2)
    /\ (Nat.even n = true -> List.length (first ++ second) = n)
    /\ (2 <= n / 2 ->
        nth 0 second 0%Q = 1%Q
        /\ nth (n / 2 - 1) second 0%Q = 0%Q
        /\ forall i, i < n / 2 ->
             (nth i second 0 == 1 - Numpy.qnat i / Numpy.qnat (n / 2 - 1))%Q).
Proof.
  exists (ones (n / 2)), (rev (Numpy.linspace 0 1 (n / 2))).
  assert (Hlen : List.length (ones (n / 2) ++ rev (Numpy.linspace 0 1 (n / 2)))
                 = 2 * (n / 2)).
  { rewrite length_app, ones_length, length_rev, linspace_length. lia. }
  repeat split; try reflexivity; try exact Hlen.
  - intros Heven. rewrite Hlen.
    apply Nat.even_spec in Heven. destruct Heven as [k ->].
    rewrite (Nat.mul_comm 2 k), Nat.div_mul by discriminate. lia.
  - rewrite rev_nth by (rewrite linspace_length; lia).
    rewrite linspace_length.
    now apply linspace01_last.
  - rewrite rev_nth by (rewrite linspace_length; lia).
    rewrite linspace_length.
    replace (n / 2 - S (n / 2 - 1)) with 0 by lia.
    now apply linspace01_first.
  - intros i Hi. now apply descending_nth.
Qed.

(** The mixed schedule at [n = 6]: three constant entries, then [1, 1/2, 0]. *)
Lemma mixed_schedule_halves_witness :
  exists first second : list Q,
    cal_teacher_forcing_ratio Mixed_Sampling 6 = Ok (first ++ second)
    /\ List.length (first ++ second) = 6
    /\ nth 0 second 0%Q = 1%Q
    /\ nth 2 second 0%Q = 0%Q
    /\ (nth 1 second 0 == 1 - 1 / 2)%Q.
Proof.
  destruct (mixed_schedule_halves 6)
    as (first & second & _ & _ & Hmixed & _ & Heven & Hshape).
  exists first, second.
  destruct Hshape as (Hfirst & Hlast & Hnth); [simpl; lia|].
  repeat split.
  - exact Hmixed.
  - apply Heven. reflexivity.
  - exact Hfirst.
  - exact Hlast.
  - apply (Hnth 1). simpl. lia.
Defined.

(** C6, as stated, fails at one step: the only sample of
    [np.linspace(0.0, 1.0, num=1)] is its start 0.0, so the single entry of
    the Scheduled_Sampling schedule is 0.0 and not 1.0. *)
Lemma scheduled_sampling_single_counterexample :
  cal_teacher_forcing_ratio Scheduled_Sampling 1 = Ok [0%Q]
  /\ cal_teacher_forcing_ratio Scheduled_Sampling 1 <> Ok [1%Q].
Proof.
  split; [reflexivity|]. vm_compute. discriminate.
Qed.

(** C6 (amended).  Each supported strategy yields the empty schedule for zero
    steps, and the Scheduled_Sampling schedule for one step is the single
    entry 0.0. *)
Theorem schedule_edge_cases :
  cal_teacher_forcing_ratio Teacher_Forcing 0 = Ok []
  /\ cal_teacher_forcing_ratio Scheduled_Sampling 0 = Ok []
  /\ cal_teacher_forcing_ratio Mixed_Sampling 0 = Ok []
  /\ cal_teacher_forcing_ratio Scheduled_Sampling 1 = Ok [0%Q].
Proof.
  repeat split; reflexivity.
Qed.

(** ** Translation: padding and row slices *)

Lemma map_const_seq {A} (a : A) (start n : nat) :
  map (fun _ => a) (seq start n) = repeat a n.
Proof.
  revert start. induction n as [|n IH]; intros start; simpl; [reflexivity|].
  now rewrite IH.
Qed.

Lemma padding_short (seq_len : nat) (idx_list : list Z) (padding_id : Z) :
  List.length idx_list < seq_len ->
  Translation.padding seq_len idx_list padding_id
  = idx_list ++ repeat padding_id (seq_len - List.length idx_list).
Proof.
  intros Hlt. unfold Translation.padding.
  apply Nat.ltb_lt in Hlt. rewrite Hlt. now rewrite map_const_seq.
Qed.

Lemma padding_long (seq_len : nat) (idx_list : list Z) (padding_id : Z) :
  seq_len <= List.length idx_list ->
  Translation.padding seq_len idx_list padding_id = firstn seq_len idx_list.
Proof.
  intros Hle. unfold Translation.padding.
  apply Nat.ltb_ge in Hle. now rewrite Hle.
Qed.

Lemma padding_length (seq_len : nat) (idx_list : list Z) (padding_id : Z) :
  List.length (Translation.padding seq_len idx_list padding_id) = seq_len.
Proof.
  destruct (Nat.lt_ge_cases (List.length idx_list) seq_len) as [Hlt|Hge].
  - rewrite padding_short, length_app, repeat_length by assumption. lia.
  - rewrite padding_long, length_firstn by assumption. lia.
Qed.



(** C9.  The decoder seed has exactly [seq_len] ids; for a sequence length
    of at least one it is the English start id followed by [seq_len - 1]
    copies of the Korean vocabulary's pad id. *)
Theorem tar_input_seed (seq_len : nat) (ko_voc en_voc : vocabulary) :
  exists row : list Z,
    Translation.tar_input seq_len ko_voc en_voc = [row]
    /\ List.length row = seq_len
    /\ (1 <= seq_len ->
        row = PieceToId en_voc "<s>"%string
              :: repeat (PieceToId ko_voc "<pad>"%string) (seq_len - 1)).
Proof.
  eexists. split; [reflexivity|]. split; [apply padding_length|].
  intros Hpos.
  destruct (Nat.eq_dec seq_len 1) as [->|Hne].
  - reflexivity.
  - rewrite padding_short by (simpl; lia). reflexivity.
Qed.

(** C9 on a pair of vocabularies with different pad ids. *)
Lemma tar_input_seed_witness :
  Translation.tar_input 4
    {| PieceToId := fun _ => 7%Z; IdToPiece := Toy.id_piece;
       EncodeAsIds := Toy.encode |}
    Toy.voc
  = [[1; 7; 7; 7]%Z].
Proof.
  destruct (tar_input_seed 4
              {| PieceToId := fun _ => 7%Z; IdToPiece := Toy.id_piece;
                 EncodeAsIds := Toy.encode |} Toy.voc)
    as (row & Hrow & _ & Hseed).
  rewrite Hrow, Hseed; [reflexivity|lia].
Defined.

Lemma range_rows (B s : nat) :
  range_from0 (B * S s) (S s) = Ok (map (fun k => k * S s) (seq 0 B)).
Proof.
  unfold range_from0. do 3 f_equal.
  replace (B * S s + S s - 1) with (B * S s + s) by lia.
  rewrite Nat.div_add_l by discriminate.
  rewrite Nat.div_small by lia. lia.
Qed.

(** The row loop of [batch_transform] on a flattened prediction of [B] rows
    of [seq_len >= 1] positions: row [i] is the slice
    [[i * seq_len, i * seq_len + seq_len - 1)], of exactly [seq_len - 1]
    ids. *)
Theorem row_slices_drop_last (seq_len B : nat) (indices : list Z) :
  1 <= seq_len ->
  List.length indices = B * seq_len ->
  exists slices : list (list Z),
    Translation.row_slices seq_len indices = Ok slices
    /\ List.length slices = B
    /\ forall i, i < B ->
         nth i slices [] = slice indices (i * seq_len) (i * seq_len + seq_len - 1)
         /\ nth i slices [] = firstn (seq_len - 1) (skipn (i * seq_len) indices)
         /\ List.length (nth i slices []) = seq_len - 1.
Proof.
  intros Hpos Hlen. destruct seq_len as [|s]; [lia|].
  unfold Translation.row_slices. rewrite Hlen, range_rows. simpl and_then.
  eexists. split; [reflexivity|]. split.
  - now rewrite !length_map, length_seq.
  - intros i Hi. rewrite map_map, nth_map_seq by assumption.
    assert (Hslice : slice indices (i * S s) (i * S s + S s - 1)
                     = firstn (S s - 1) (skipn (i * S s) indices)).
    { unfold slice. f_equal. lia. }
    repeat split; [exact Hslice|].
    rewrite Hslice, length_firstn, length_skipn, Hlen. nia.
Qed.

(** Two rows of three positions: the third id of each row is dropped. *)
Lemma row_slices_drop_last_witness :
  Translation.row_slices 3 [3; 3; 2; 4; 2; 4]%Z = Ok [[3; 3]%Z; [4; 2]%Z].
Proof.
  destruct (@row_slices_drop_last 3 2 [3; 3; 2; 4; 2; 4]%Z)
    as (slices & Hslices & Hlen & Hrows); [lia|reflexivity|].
  rewrite Hslices. f_equal.
  destruct slices as [|r0 [|r1 [|r2 rest]]]; try discriminate.
  destruct (Hrows 0) as (_ & H0 & _); [lia|].
  destruct (Hrows 1) as (_ & H1 & _); [lia|].
  simpl in H0, H1. now subst.
Defined.

(** ** Translation: the batch bound *)

Lemma get_test_loader_bounded (x_file y_file : list string) :
  List.length (fst (Translation.get_test_loader x_file y_file))
  <= Translation.batch_size.
Proof.
  unfold Translation.get_test_loader, slice. cbn [fst].
  rewrite length_firstn. lia.
Qed.

(** C3 on the code.  [get_test_loader] keeps only the first 100 lines, so the
    size test of [batch_transform] never holds.  On a file of 101 sentences
    the call returns normally after one model invocation on 100 rows; it
    does not fail. *)
Theorem batch_transform_oversized_input_runs :
  (forall x_file y_file : list string,
      (Translation.batch_size
       <? List.length (fst (Translation.get_test_loader x_file y_file))) = false)
  /\ List.length (Toy.lines 101) = 101
  /\ snd (Toy.batch_transform 101) = Ok tt
  /\ Toy.forward_rows (fst (Toy.batch_transform 101)) = [100].
Proof.
  split.
  - intros x_file y_file. apply Nat.ltb_ge. apply get_test_loader_bounded.
  - repeat split; vm_compute; reflexivity.
Qed.

(** ** Metrics *)

Section MetricProofs.

Variable en_voc : vocabulary.
Variable criterion : logits -> list Z -> pyfloat.
Variable math_exp : pyfloat -> result pyfloat.

Lemma count_valid_all_invalid (invalid_targets : list bool) :
  Forall (fun b => b = true) invalid_targets ->
  Trainer.count_valid invalid_targets = 0.
Proof.
  intros Hall. unfold Trainer.count_valid. generalize 0 as total.
  induction Hall as [|b l Hb _ IH]; intros total; simpl; [reflexivity|].
  subst b. simpl. apply IH.
Qed.

Lemma eq_scalar_all (tar : list Z) (v : Z) :
  Forall (fun t => t = v) tar ->
  Forall (fun b => b = true) (Torch.eq_scalar tar v).
Proof.
  induction 1 as [|t l Ht _ IH]; simpl; constructor; [|exact IH].
  subst t. apply Z.eqb_refl.
Qed.

Lemma masked_sum_all_masked (t mask : list bool) :
  Forall (fun b => b = true) mask ->
  Torch.sum (Torch.masked_fill t mask false) = 0.
Proof.
  intros Hmask. revert t.
  induction Hmask as [|b mask Hb _ IH]; intros [|x t]; simpl; try reflexivity.
  subst b. simpl. apply IH.
Qed.

Lemma max_indices_defined (out : logits) :
  Forall (fun row => row <> []) out ->
  exists indices, Torch.max_indices out = Ok indices.
Proof.
  unfold Torch.max_indices.
  induction 1 as [|row out Hrow _ [indices IH]].
  - now exists [].
  - destruct row as [|x row]; [contradiction|].
    cbn [map_result Torch.argmax and_then]. rewrite IH.
    cbn [and_then]. now eexists.
Qed.

(** C2 (amended).  On a shape-compatible batch whose targets are all the
    pad id, [loss_accuracy] raises nothing when [math.exp] does not
    overflow; loss and perplexity are computed as usual, and the accuracy
    is the unguarded quotient [0.0 / 0] of [torch.div], that is [nan]. *)
Theorem loss_accuracy_all_pad (out : logits) (tar : list Z) (ppl : pyfloat) :
  Forall (fun t => t = PieceToId en_voc "<pad>"%string) tar ->
  List.length out = List.length tar ->
  Forall (fun row => row <> []) out ->
  math_exp (criterion out tar) = Ok ppl ->
  Trainer.loss_accuracy en_voc criterion math_exp out tar
  = Ok (criterion out tar, NaN, ppl).
Proof.
  intros Hpad Hshape Hrows Hexp.
  destruct (max_indices_defined Hrows) as [indices Hindices].
  unfold Trainer.loss_accuracy, Trainer.cross_entropy.
  apply Nat.eqb_eq in Hshape. rewrite Hshape. simpl and_then.
  rewrite Hexp. simpl and_then. rewrite Hindices. simpl and_then.
  pose proof (eq_scalar_all Hpad) as Hinvalid.
  unfold Trainer.en_pad.
  rewrite (count_valid_all_invalid Hinvalid).
  rewrite (masked_sum_all_masked _ Hinvalid).
  reflexivity.
Qed.

End MetricProofs.

(** C2, as stated, fails: on the all-padding toy batch the returned accuracy
    is [nan], not 0; the division by the zero count is carried out. *)
Lemma all_pad_accuracy_counterexample :
  let out := Toy.model (src_input Toy.b_pad) (tar_input Toy.b_pad) 1 in
  let tar := List.concat (tar_output Toy.b_pad) in
  Forall (fun t => t = PieceToId Toy.voc "<pad>"%string) tar
  /\ Trainer.loss_accuracy Toy.voc Toy.criterion Toy.math_exp out tar
     = Ok (NaN, NaN, NaN)
  /\ (forall loss accuracy ppl,
        Trainer.loss_accuracy Toy.voc Toy.criterion Toy.math_exp out tar
        = Ok (loss, accuracy, ppl) ->
        accuracy <> Fin 0).
Proof.
  simpl. split; [repeat constructor|]. split; [reflexivity|].
  intros loss accuracy ppl H. vm_compute in H. injection H as _ <- _.
  discriminate.
Qed.

(** The amended C2 on the all-padding toy batch. *)
Lemma loss_accuracy_all_pad_witness :
  Trainer.loss_accuracy Toy.voc Toy.criterion Toy.math_exp
    (Toy.model (src_input Toy.b_pad) (tar_input Toy.b_pad) 1)
    (List.concat (tar_output Toy.b_pad))
  = Ok (NaN, NaN, NaN).
Proof.
  apply (@loss_accuracy_all_pad Toy.voc Toy.criterion Toy.math_exp
           (Toy.model (src_input Toy.b_pad) (tar_input Toy.b_pad) 1)
           (List.concat (tar_output Toy.b_pad)) NaN).
  - repeat constructor.
  - reflexivity.
  - repeat constructor; discriminate.
  - reflexivity.
Defined.

(** ** Validation averages *)

Lemma fadd_comm (a b : pyfloat) : fadd a b = fadd b a.
Proof.
  destruct a, b; cbn [fadd]; try reflexivity.
  f_equal. apply Qred_complete. ring.
Qed.

Lemma fadd_assoc (a b c : pyfloat) : fadd a (fadd b c) = fadd (fadd a b) c.
Proof.
  destruct a, b, c; cbn [fadd]; try reflexivity.
  f_equal. apply Qred_complete. rewrite !Qred_correct. ring.
Qed.

Lemma fold_right_fadd_shift (l : list pyfloat) (a x : pyfloat) :
  fold_right fadd (fadd a x) l = fadd x (fold_right fadd a l).
Proof.
  induction l as [|y l IH]; simpl.
  - apply fadd_comm.
  - rewrite IH, !fadd_assoc. f_equal. apply fadd_comm.
Qed.

(** Accumulating from the left, as the loop does, gives the sum. *)
Lemma fold_left_fadd (l : list pyfloat) (a : pyfloat) :
  fold_left fadd l a = fold_right fadd a l.
Proof.
  revert a. induction l as [|x l IH]; intros a; simpl; [reflexivity|].
  rewrite IH. apply fold_right_fadd_shift.
Qed.

Lemma truediv_mean (l : list pyfloat) :
  l <> [] -> truediv (fsum l) (List.length l) = Ok (unweighted_mean l).
Proof.
  intros Hne. unfold truediv, unweighted_mean.
  destruct l as [|x l]; [contradiction|].
  cbn [List.length]. now destruct (fsum (x :: l)).
Qed.

(** On finite batch values the mean is the rational [(x1 + ... + xn) / n]. *)
Lemma unweighted_mean_finite (qs : list Q) :
  unweighted_mean (map Fin qs)
  = Fin (Qred (qsum qs / inject_Z (Z.of_nat (List.length qs)))).
Proof.
  assert (H : exists q, fsum (map Fin qs) = Fin q /\ (q == qsum qs)%Q).
  { induction qs as [|x qs (q & Hq & Heq)].
    - exists 0%Q. split; reflexivity.
    - unfold fsum in *. cbn [map fold_right qsum]. rewrite Hq. cbn [fadd].
      eexists. split; [reflexivity|].
      rewrite Qred_correct, Heq. reflexivity. }
  destruct H as (q & Hq & Heq).
  unfold unweighted_mean. rewrite Hq, length_map. f_equal.
  apply Qred_complete. now rewrite Heq.
Qed.

Section ValidationProofs.

Variable args : arguments.
Variables ko_voc en_voc : vocabulary.
Variable model : ids2d -> ids2d -> Q -> logits.
Variable criterion : logits -> list Z -> pyfloat.
Variable math_exp : pyfloat -> result pyfloat.
Variable clean : string -> string.
Variable n_gram_precision : string -> string -> pyfloat.
Variable rate : Q.

Local Abbreviation val_batch :=
  (Trainer.val_batch en_voc model criterion math_exp rate) (only parsing).
Local Abbreviation scored :=
  (scored en_voc model criterion math_exp rate) (only parsing).

Lemma val_loop (loader : list batch) (scores : list (pyfloat * pyfloat * pyfloat)) :
  Forall2 scored loader scores ->
  forall st : val_state,
  exists log st',
    for_each loader st val_batch = (log, Ok st')
    /\ total_loss st' = fold_left fadd (map loss_of scores) (total_loss st)
    /\ total_accuracy st'
       = fold_left fadd (map accuracy_of scores) (total_accuracy st)
    /\ total_ppl st' = fold_left fadd (map ppl_of scores) (total_ppl st)
    /\ count st' = count st + List.length scores
    /\ (loader = [] -> last_iter st' = last_iter st)
    /\ (loader <> [] ->
        exists data s,
          scored data s
          /\ last_iter st'
             = Some (data, model (src_input data) (tar_input data) rate)).
Proof.
  induction 1 as [|data s loader scores Hs Hrest IH]; intros st.
  - exists [], st. simpl. repeat split; try reflexivity; try lia.
    intros Hne. contradiction.
  - pose proof Hs as Hs'. destruct Hs' as (Hscore & _).
    cbn [for_each]. unfold Trainer.val_batch at 1.
    cbn [emit bind]. unfold lift. rewrite Hscore.
    destruct s as [[loss accuracy] ppl]. cbn [bind ret app].
    match goal with
    | |- context [for_each loader ?st1 val_batch] =>
        destruct (IH st1) as (log & st' & Hrun & Hl & Ha & Hp & Hc & Hnil & Hcons)
    end.
    rewrite Hrun. eexists. exists st'. split; [reflexivity|].
    cbn [total_loss total_accuracy total_ppl count last_iter] in *.
    cbn [map fold_left List.length loss_of accuracy_of ppl_of fst snd].
    repeat split; try assumption; try discriminate.
    + lia.
    + intros _. destruct loader as [|d loader].
      * exists data, (loss, accuracy, ppl). split; [exact Hs|].
        now rewrite Hnil.
      * apply Hcons. discriminate.
Qed.

Lemma scored_max_indices (data : batch) (s : pyfloat * pyfloat * pyfloat) :
  scored data s ->
  exists indices,
    Torch.max_indices (model (src_input data) (tar_input data) rate) = Ok indices.
Proof.
  intros (Hscore & _). unfold Trainer.loss_accuracy in Hscore.
  destruct (Trainer.cross_entropy _ _ _); [|discriminate].
  cbn [and_then] in Hscore.
  destruct (math_exp _); [|discriminate]. cbn [and_then] in Hscore.
  destruct (Torch.max_indices _) as [indices|]; [|discriminate].
  now exists indices.
Qed.

Lemma getitem_first {A} (l : list A) :
  l <> [] -> exists a, getitem l 0 = Ok a.
Proof.
  destruct l as [|a l]; [contradiction|]. intros _. now exists a.
Qed.

(** C7.  On a non-empty validation set whose batches are all scored, [val]
    returns, and the loss, accuracy and perplexity it returns are the sums
    of the per-batch values divided by the number of batches. *)
Theorem val_returns_unweighted_means
        (val_loader : list batch)
        (scores : list (pyfloat * pyfloat * pyfloat)) :
  val_loader <> [] ->
  Forall2 scored val_loader scores ->
  exists log bleu,
    Trainer.val args ko_voc en_voc val_loader model criterion math_exp
                clean n_gram_precision rate
    = (log, Ok (unweighted_mean (map loss_of scores),
                unweighted_mean (map accuracy_of scores),
                unweighted_mean (map ppl_of scores),
                bleu)).
Proof.
  intros Hne Hscores.
  assert (Hscores_ne : scores <> []).
  { destruct Hscores; [contradiction|discriminate]. }
  destruct (val_loop Hscores Trainer.val_init)
    as (log & st & Hrun & Hl & Ha & Hp & Hc & _ & Hlast).
  destruct (Hlast Hne) as (data & s & Hs & Hiter). clear Hlast.
  destruct (scored_max_indices Hs) as [indices Hindices].
  destruct Hs as (_ & Hsrc & Htar).
  destruct (getitem_first Hsrc) as [a Ha0].
  destruct (getitem_first Htar) as [b Hb0].
  rewrite fold_left_fadd in Hl, Ha, Hp.
  cbn [Trainer.val_init total_loss total_accuracy total_ppl count] in Hl, Ha, Hp, Hc.
  unfold Trainer.val. rewrite Hrun. cbn [bind]. rewrite Hiter.
  unfold lift. rewrite Hindices, Ha0, Hb0, Hl, Ha, Hp, Hc.
  fold (fsum (map loss_of scores)) (fsum (map accuracy_of scores))
       (fsum (map ppl_of scores)).
  cbn [Nat.add].
  assert (Hmean : forall f : pyfloat * pyfloat * pyfloat -> pyfloat,
             truediv (fsum (map f scores)) (List.length scores)
             = Ok (unweighted_mean (map f scores))).
  { intros f. rewrite <- (length_map f scores). apply truediv_mean.
    destruct scores; [contradiction|discriminate]. }
  rewrite !Hmean.
  cbn [bind ret emit Trainer.tensor2sentence_en getitem nth_error].
  eexists. eexists. reflexivity.
Qed.

End ValidationProofs.

(** C7 on a toy validation set of two batches: losses 1/2 and 1/2,
    accuracies 1 and 0, perplexities 3/2 and 3/2. *)
Lemma val_returns_unweighted_means_witness :
  exists log bleu,
    Trainer.val (Toy.args Teacher_Forcing 1) Toy.voc Toy.voc [Toy.b0; Toy.b1]
                Toy.model Toy.criterion Toy.math_exp Toy.clean
                Toy.n_gram_precision 1
    = (log, Ok (Fin (1 # 2), Fin (1 # 2), Fin (3 # 2), bleu)).
Proof.
  destruct (@val_returns_unweighted_means
              (Toy.args Teacher_Forcing 1) Toy.voc Toy.voc Toy.model
              Toy.criterion Toy.math_exp Toy.clean Toy.n_gram_precision 1
              [Toy.b0; Toy.b1]
              [(Fin (1 # 2), Fin 1, Fin (3 # 2));
               (Fin (1 # 2), Fin 0, Fin (3 # 2))])
    as (log & bleu & Hval).
  - discriminate.
  - repeat constructor; discriminate.
  - exists log, bleu. rewrite Hval. reflexivity.
Defined.

(** ** The training loop and the interrupt *)

Lemma bind_keeps_out {A B} (m : M event A) (k : A -> M event B) (e : exn) :
  snd m <> Raise e ->
  (forall a, snd (k a) <> Raise e) ->
  snd (bind m k) <> Raise e.
Proof.
  intros Hm Hk. destruct m as [log [a|e']]; simpl in *.
  - specialize (Hk a). destruct (k a) as [log' r]. exact Hk.
  - intros H. apply Hm. injection H as ->. reflexivity.
Qed.

Lemma bind_value {A B} (a : A) (k : A -> M event B) :
  bind ([], Ok a) k = k a.
Proof.
  unfold bind. now destruct (k a).
Qed.

Lemma bind_emit {B} (e : event) (k : unit -> M event B) :
  bind (emit e) k = (e :: fst (k tt), snd (k tt)).
Proof.
  unfold bind, emit. now destruct (k tt).
Qed.

Lemma for_each_keeps_out {A S} (body : A -> S -> M event S) (e : exn) :
  (forall x s, snd (body x s) <> Raise e) ->
  forall xs s, snd (for_each xs s body) <> Raise e.
Proof.
  intros Hbody. induction xs as [|x xs IH]; intros s; simpl.
  - discriminate.
  - apply bind_keeps_out; [apply Hbody|exact IH].
Qed.

Lemma schedule_only_raises_not_implemented
      (learning_method : string) (total_step : nat) (e : exn) :
  cal_teacher_forcing_ratio learning_method total_step = Raise e ->
  e = NotImplementedError.
Proof.
  unfold cal_teacher_forcing_ratio.
  repeat match goal with |- context [String.eqb ?a ?b] => destruct (String.eqb a b) end;
    intros H; try discriminate.
  now injection H.
Qed.

Section TrainingProofs.

Variable args : arguments.
Variables ko_voc en_voc : vocabulary.
Variables train_loader val_loader : list batch.
Variable model : ids2d -> ids2d -> Q -> logits.
Variable criterion : logits -> list Z -> pyfloat.
Variable math_exp : pyfloat -> result pyfloat.
Variable clean : string -> string.
Variable n_gram_precision : string -> string -> pyfloat.
Variable interrupt : nat -> nat -> option phase.

Local Abbreviation train_step :=
  (Trainer.train_step args ko_voc en_voc val_loader model criterion math_exp
                      clean n_gram_precision interrupt) (only parsing).
Local Abbreviation guarded_step :=
  (Trainer.guarded_step args ko_voc en_voc val_loader model criterion math_exp
                        clean n_gram_precision interrupt) (only parsing).
Local Abbreviation train :=
  (Trainer.train args ko_voc en_voc train_loader val_loader model criterion
                 math_exp clean n_gram_precision interrupt) (only parsing).

Lemma guarded_step_catches (train_ratios val_ratios : list Q)
      (epoch : nat) (item : nat * batch) (step : nat) :
  snd (guarded_step train_ratios val_ratios epoch item step)
  <> Raise KeyboardInterrupt.
Proof.
  unfold Trainer.guarded_step, try_except.
  destruct (Trainer.train_step _ _ _ _ _ _ _ _ _ _ _ _ _ _ _ _)
    as [log [step'|e]]; simpl; [discriminate|].
  destruct e; simpl; discriminate.
Qed.

Lemma train_catches : snd train <> Raise KeyboardInterrupt.
Proof.
  unfold Trainer.train.
  apply bind_keeps_out.
  { unfold lift. simpl. intros H.
    apply schedule_only_raises_not_implemented in H. discriminate. }
  intros train_ratios. apply bind_keeps_out.
  { unfold lift. simpl. intros H.
    apply schedule_only_raises_not_implemented in H. discriminate. }
  intros val_ratios. apply bind_keeps_out; [|discriminate].
  apply for_each_keeps_out. intros epoch step.
  unfold Trainer.train_epoch. apply for_each_keeps_out.
  intros item step'. apply guarded_step_catches.
Qed.

(** The forward pass of a step reads the schedule at the position [i] of the
    batch in its epoch, whatever the global [step] is. *)
Lemma train_step_uses_batch_index
      (train_ratios val_ratios : list Q) (epoch i : nat) (data : batch)
      (step : nat) (rate : Q) :
  interrupt epoch i = None ->
  getitem train_ratios i = Ok rate ->
  exists log r,
    train_step train_ratios val_ratios epoch i data step
    = (EForward true (src_input data) (tar_input data) rate :: log, r).
Proof.
  intros Hquiet Hrate.
  unfold Trainer.train_step, Trainer.interrupt_point, lift, ret.
  rewrite Hquiet, Hrate, !bind_value, bind_emit.
  eexists. eexists. reflexivity.
Qed.

(** C1 (amended).  When [KeyboardInterrupt] is raised inside a training
    step, the handler saves a checkpoint with the current epoch and step
    and the step ends normally with the step counter unchanged; the loop
    then goes on with the remaining batches of the epoch.  [train] never
    ends with [KeyboardInterrupt]. *)
Theorem interrupt_saves_then_loop_continues
        (train_ratios val_ratios : list Q) (epoch i : nat) (data : batch)
        (rest : list (nat * batch)) (step : nat) (log : list event) :
  train_step train_ratios val_ratios epoch i data step
  = (log, Raise KeyboardInterrupt) ->
  guarded_step train_ratios val_ratios epoch (i, data) step
  = (log ++ [ESave epoch step], Ok step)
  /\ for_each ((i, data) :: rest) step
              (guarded_step train_ratios val_ratios epoch)
     = (log ++ ESave epoch step
            :: fst (for_each rest step (guarded_step train_ratios val_ratios epoch)),
        snd (for_each rest step (guarded_step train_ratios val_ratios epoch)))
  /\ snd train <> Raise KeyboardInterrupt.
Proof.
  intros Hstep.
  assert (Hguard : guarded_step train_ratios val_ratios epoch (i, data) step
                   = (log ++ [ESave epoch step], Ok step)).
  { unfold Trainer.guarded_step, try_except. cbn [fst snd].
    rewrite Hstep. reflexivity. }
  split; [exact Hguard|]. split; [|exact train_catches].
  cbn [for_each]. rewrite Hguard. cbn [bind].
  destruct (for_each rest step _) as [log' r]. cbn [fst snd].
  now rewrite <- app_assoc.
Qed.

End TrainingProofs.

(** The amended C1 on the toy run: the interrupt arrives during the update
    of the first batch; the step ends normally after the handler's save. *)
Lemma interrupt_saves_then_loop_continues_witness :
  exists log,
    Trainer.train_step (Toy.args Scheduled_Sampling 1) Toy.voc Toy.voc [Toy.b0]
      Toy.model Toy.criterion Toy.math_exp Toy.clean Toy.n_gram_precision
      Toy.interrupt_first [1; 1 # 2; 0]%Q [1%Q] 0 0 Toy.b0 0
    = (log, Raise KeyboardInterrupt)
    /\ Trainer.guarded_step (Toy.args Scheduled_Sampling 1) Toy.voc Toy.voc [Toy.b0]
         Toy.model Toy.criterion Toy.math_exp Toy.clean Toy.n_gram_precision
         Toy.interrupt_first [1; 1 # 2; 0]%Q [1%Q] 0 (0, Toy.b0) 0
       = (log ++ [ESave 0 0], Ok 0).
Proof.
  eexists. split.
  - vm_compute. reflexivity.
  - apply (@interrupt_saves_then_loop_continues
             (Toy.args Scheduled_Sampling 1) Toy.voc Toy.voc [Toy.b0; Toy.b1]
             [Toy.b0] Toy.model Toy.criterion Toy.math_exp Toy.clean
             Toy.n_gram_precision Toy.interrupt_first
             [1; 1 # 2; 0]%Q [1%Q] 0 0 Toy.b0 [] 0).
    vm_compute. reflexivity.
Defined.

(** C1, as stated, fails: in a run of one epoch over two batches with the
    interrupt raised during the first step, [train] returns normally; after
    the handler's save ([ESave 0 0], the second one in the log) the loop runs
    the forward pass of the second batch. *)
Lemma interrupt_swallowed_counterexample :
  Toy.interrupt_first 0 0 = Some AtUpdate
  /\ Toy.train Scheduled_Sampling 1 Toy.interrupt_first
     = ([EForward true [[3; 0]%Z] [[1; 3]%Z] 1;
         ETrainLog 0 0 0 (Fin (1 # 2)) (Fin 1) (Fin (3 # 2));
         EForward false [[3; 0]%Z] [[1; 3]%Z] 1;
         EPrint "Korean: a"%string; EPrint "Predicted : a"%string;
         EPrint "Target :a"%string; EPrint "BLEU Score : "%string;
         EValLog 0 0 0 (Fin (1 # 2)) (Fin 1) (Fin (3 # 2)) (Fin 1);
         EPrint "time :"%string; ESave 0 0;
         ESave 0 0;
         EForward true [[4; 3]%Z] [[1; 4]%Z] (1 # 2);
         ETrainLog 0 1 0 (Fin (1 # 2)) (Fin 0) (Fin (3 # 2));
         EForward false [[3; 0]%Z] [[1; 3]%Z] 1;
         EPrint "Korean: a"%string; EPrint "Predicted : a"%string;
         EPrint "Target :a"%string; EPrint "BLEU Score : "%string;
         EValLog 0 1 0 (Fin (1 # 2)) (Fin 1) (Fin (3 # 2)) (Fin 1);
         EPrint "time :"%string; ESave 0 0; EUpdate 0],
        Ok tt)
  /\ snd (Toy.train Scheduled_Sampling 1 Toy.interrupt_first)
     <> Raise KeyboardInterrupt.
Proof.
  split; [reflexivity|]. split; [vm_compute; reflexivity|].
  vm_compute. discriminate.
Qed.

(** C4 on the code.  In a run of two epochs over two batches with
    Scheduled_Sampling, the schedule has 2 * (2 + 1) entries and the forward
    passes at global steps 0, 1, 2, 3 use the entries 0, 1, 0, 1: the index
    is the position of the batch in its epoch and restarts at each epoch. *)
Theorem train_rates_restart_each_epoch :
  cal_teacher_forcing_ratio Scheduled_Sampling (2 * (2 + 1))
  = Ok [1; 4 # 5; 3 # 5; 2 # 5; 1 # 5; 0]%Q
  /\ snd (Toy.train Scheduled_Sampling 2 Toy.no_interrupt) = Ok tt
  /\ Toy.training_rates (fst (Toy.train Scheduled_Sampling 2 Toy.no_interrupt))
     = [1; 4 # 5; 1; 4 # 5]%Q
  /\ Toy.training_rates (fst (Toy.train Scheduled_Sampling 2 Toy.no_interrupt))
     <> [1; 4 # 5; 3 # 5; 2 # 5]%Q.
Proof.
  repeat split; try (vm_compute; reflexivity).
  vm_compute. discriminate.
Qed.

(* ================================================================== *)
(** * Further properties of the code *)

(** ** Schedule *)

(** X1.  The Teacher_Forcing schedule for [n] steps has [n] entries, all 1.0. *)
Theorem teacher_forcing_schedule_constant (n : nat) :
  exists l : list Q,
    cal_teacher_forcing_ratio Teacher_Forcing n = Ok l
    /\ List.length l = n
    /\ Forall (fun q => q = 1%Q) l.
Proof.
  exists (ones n). split; [reflexivity|]. split; [apply ones_length|].
  rewrite ones_repeat. apply Forall_forall. intros q Hq.
  now apply repeat_spec in Hq.
Qed.

Lemma qnat_succ (i : nat) : (Numpy.qnat (i + 1) == Numpy.qnat i + 1)%Q.
Proof.
  unfold Numpy.qnat. rewrite Nat2Z.inj_add.
  unfold Qeq, Qplus. simpl. lia.
Qed.

(** X2.  The Scheduled_Sampling schedule for [n >= 2] steps has [n] entries,
    starts at 1.0, ends at 0.0 and is strictly decreasing. *)
Theorem scheduled_sampling_descends (n : nat) :
  2 <= n ->
  exists l : list Q,
    cal_teacher_forcing_ratio Scheduled_Sampling n = Ok l
    /\ List.length l = n
    /\ nth 0 l 0%Q = 1%Q
    /\ nth (n - 1) l 0%Q = 0%Q
    /\ forall i, i + 1 < n -> (nth (i + 1) l 0 < nth i l 0)%Q.
Proof.
  intros Hn. exists (rev (Numpy.linspace 0 1 n)).
  split; [reflexivity|]. split; [now rewrite length_rev, linspace_length|].
  split; [|split].
  - rewrite rev_nth by (rewrite linspace_length; lia).
    rewrite linspace_length. now apply linspace01_last.
  - rewrite rev_nth by (rewrite linspace_length; lia).
    rewrite linspace_length.
    replace (n - S (n - 1)) with 0 by lia. now apply linspace01_first.
  - intros i Hi. rewrite !descending_nth by lia.
    rewrite qnat_succ.
    assert (Hd : (0 < / Numpy.qnat (n - 1))%Q).
    { apply Qinv_lt_0_compat. unfold Numpy.qnat, Qlt. simpl. lia. }
    unfold Qdiv. rewrite Qmult_plus_distr_l.
    set (d := (/ Numpy.qnat (n - 1))%Q) in *.
    set (x := (Numpy.qnat i * d)%Q).
    apply Qlt_minus_iff. ring_simplify. exact Hd.
Qed.

(** X2 at five steps: 1, 3/4, 1/2, 1/4, 0. *)
Lemma scheduled_sampling_descends_witness :
  exists l : list Q,
    cal_teacher_forcing_ratio Scheduled_Sampling 5 = Ok l
    /\ List.length l = 5
    /\ nth 0 l 0%Q = 1%Q
    /\ nth 4 l 0%Q = 0%Q
    /\ (nth 3 l 0 < nth 2 l 0)%Q.
Proof.
  destruct (@scheduled_sampling_descends 5) as (l & Hl & Hlen & H0 & H4 & Hdec);
    [lia|].
  exists l. repeat split; try assumption.
  apply (Hdec 2). lia.
Defined.

(** X3.  The schedule fails exactly on the names other than the three
    supported ones, and then with [NotImplementedError], whatever the step
    count. *)
Theorem unsupported_strategy_raises (learning_method : string) (total_step : nat) :
  cal_teacher_forcing_ratio learning_method total_step = Raise NotImplementedError
  <-> (learning_method <> Teacher_Forcing
       /\ learning_method <> Scheduled_Sampling
       /\ learning_method <> Mixed_Sampling).
Proof.
  unfold cal_teacher_forcing_ratio.
  destruct (String.eqb_spec learning_method Teacher_Forcing) as [->|H1].
  { split; [discriminate|]. intros (H & _). now contradiction H. }
  destruct (String.eqb_spec learning_method Scheduled_Sampling) as [->|H2].
  { split; [discriminate|]. intros (_ & H & _). now contradiction H. }
  destruct (String.eqb_spec learning_method Mixed_Sampling) as [->|H3].
  { split; [discriminate|]. intros (_ & _ & H). now contradiction H. }
  split; [now intros _|reflexivity].
Qed.

Lemma linspace01_in_unit (m : nat) :
  Forall (fun q => (0 <= q <= 1)%Q) (Numpy.linspace 0 1 m).
Proof.
  destruct (Nat.lt_ge_cases m 2) as [Hsmall|Hbig].
  - destruct m as [|[|m]]; [constructor| |lia].
    repeat constructor; vm_compute; discriminate.
  - apply Forall_nth. intros i d Hi. rewrite linspace_length in Hi.
    rewrite (nth_indep _ d 0%Q) by now rewrite linspace_length.
    rewrite linspace01_nth by assumption.
    assert (Hd : (0 < Numpy.qnat (m - 1))%Q).
    { unfold Numpy.qnat, Qlt. simpl. lia. }
    split.
    + apply Qle_shift_div_l; [exact Hd|]. rewrite Qmult_0_l.
      unfold Numpy.qnat. rewrite <- (Zle_Qle 0). lia.
    + apply Qle_shift_div_r; [exact Hd|]. rewrite Qmult_1_l.
      unfold Numpy.qnat. rewrite <- Zle_Qle. lia.
Qed.

(** X4.  Every entry of every schedule the function returns lies between
    0.0 and 1.0. *)
Theorem schedule_entries_in_unit_interval
        (learning_method : string) (total_step : nat) (l : list Q) :
  cal_teacher_forcing_ratio learning_method total_step = Ok l ->
  Forall (fun q => (0 <= q <= 1)%Q) l.
Proof.
  assert (Hones : forall n, Forall (fun q => (0 <= q <= 1)%Q) (ones n)).
  { intros n. rewrite ones_repeat. apply Forall_forall. intros q Hq.
    apply repeat_spec in Hq. subst q. split; discriminate. }
  unfold cal_teacher_forcing_ratio.
  destruct (String.eqb learning_method Teacher_Forcing).
  { intros H. injection H as <-. apply Hones. }
  destruct (String.eqb learning_method Scheduled_Sampling).
  { intros H. injection H as <-. apply Forall_rev, linspace01_in_unit. }
  destruct (String.eqb learning_method Mixed_Sampling); [|discriminate].
  intros H. injection H as <-. apply Forall_app. split; [apply Hones|].
  apply Forall_rev, linspace01_in_unit.
Qed.

(** X4 on the mixed schedule for seven steps. *)
Lemma schedule_entries_in_unit_interval_witness :
  Forall (fun q => (0 <= q <= 1)%Q) [1; 1; 1; 1; 1 # 2; 0]%Q.
Proof.
  apply (@schedule_entries_in_unit_interval Mixed_Sampling 7).
  vm_compute. reflexivity.
Defined.

(** ** Schedule lookups of the training loop *)

Lemma schedule_length_lower (learning_method : string) (total_step : nat)
      (l : list Q) :
  cal_teacher_forcing_ratio learning_method total_step = Ok l ->
  total_step - 1 <= List.length l.
Proof.
  unfold cal_teacher_forcing_ratio.
  destruct (String.eqb learning_method Teacher_Forcing).
  { intros H. injection H as <-. rewrite ones_length. lia. }
  destruct (String.eqb learning_method Scheduled_Sampling).
  { intros H. injection H as <-. rewrite length_rev, linspace_length. lia. }
  destruct (String.eqb learning_method Mixed_Sampling); [|discriminate].
  intros H. injection H as <-.
  rewrite length_app, ones_length, length_rev, linspace_length.
  unfold int_half.
  pose proof (Nat.div_mod_eq total_step 2) as Hdiv.
  pose proof (Nat.mod_upper_bound total_step 2 ltac:(discriminate)) as Hmod.
  lia.
Qed.

(** X5.  With at least one epoch, the training schedule built by [train]
    for [epochs * (len(train_loader) + 1)] steps has an entry at every
    position [i] of a batch in its epoch, so [train_ratios[i]] never raises
    [IndexError], also for the Mixed_Sampling schedule, which is one entry
    short on an odd step count. *)
Theorem train_ratio_lookup_in_range
        (learning_method : string) (n_epochs n_batches i : nat)
        (train_ratios : list Q) :
  1 <= n_epochs ->
  i < n_batches ->
  cal_teacher_forcing_ratio learning_method (n_epochs * (n_batches + 1))
  = Ok train_ratios ->
  exists rate, getitem train_ratios i = Ok rate.
Proof.
  intros Hepochs Hi Hsched.
  apply schedule_length_lower in Hsched.
  assert (Hlen : i < List.length train_ratios) by nia.
  unfold getitem.
  destruct (nth_error train_ratios i) as [rate|] eqn:Hnth.
  - now exists rate.
  - apply nth_error_None in Hnth. lia.
Qed.

(** X5 on one epoch of two batches with the mixed schedule [1.0, 0.0]. *)
Lemma train_ratio_lookup_in_range_witness :
  exists rate, getitem [1; 0]%Q 1 = Ok rate.
Proof.
  apply (@train_ratio_lookup_in_range Mixed_Sampling 1 2 1 [1; 0]%Q);
    [lia|lia|vm_compute; reflexivity].
Defined.

(** X6.  The validation schedule of [train] has [total_step // 100 + 1]
    entries, all 1.0.  Reading it at the index [steps] that the loop
    computes from the global step succeeds, with rate 1.0, when
    [steps <= total_step // 100] and raises [IndexError] otherwise; the index
    is in range at every validation step when the validation interval is at
    least 100. *)
Theorem validation_ratio_lookup (total_step step val_interval : nat) :
  let steps :=
    if val_interval <=? step then step / val_interval else step in
  exists val_ratios : list Q,
    cal_teacher_forcing_ratio Teacher_Forcing (total_step / 100 + 1) = Ok val_ratios
    /\ (steps <= total_step / 100 -> getitem val_ratios steps = Ok 1%Q)
    /\ (total_step / 100 < steps -> getitem val_ratios steps = Raise IndexError)
    /\ (100 <= val_interval -> step < total_step ->
        step mod val_interval = 0 ->
        getitem val_ratios steps = Ok 1%Q).
Proof.
  intros steps. exists (ones (total_step / 100 + 1)).
  split; [reflexivity|].
  assert (Hin : forall k, k <= total_step / 100 ->
                          getitem (ones (total_step / 100 + 1)) k = Ok 1%Q).
  { intros k Hk. unfold getitem. rewrite ones_repeat.
    rewrite (nth_error_nth' _ 1%Q) by (rewrite repeat_length; lia).
    now rewrite nth_repeat. }
  split; [apply Hin|]. split.
  - intros Hout. unfold getitem.
    destruct (nth_error _ steps) eqn:Hnth; [|reflexivity].
    assert (steps < List.length (ones (total_step / 100 + 1)))
      by (apply nth_error_Some; congruence).
    rewrite ones_length in *. lia.
  - intros Hinterval Hstep Hmod. apply Hin. subst steps.
    destruct (Nat.leb_spec val_interval step) as [Hle|Hlt].
    + transitivity (step / 100).
      * apply Nat.div_le_compat_l. lia.
      * apply Nat.Div0.div_le_mono. lia.
    + rewrite Nat.mod_small in Hmod by assumption. lia.
Qed.

(** X6 with 250 steps in total: at step 200 with interval 100 the index 2 is
    in range; at step 3 with interval 1 the index 3 is out of range. *)
Lemma validation_ratio_lookup_witness :
  getitem (ones (250 / 100 + 1)) 2 = Ok 1%Q
  /\ getitem (ones (250 / 100 + 1)) 3 = Raise IndexError.
Proof.
  split.
  - destruct (@validation_ratio_lookup 250 200 100) as (r & Hr & _ & _ & Hok).
    injection Hr as <-. apply Hok; [lia|lia|reflexivity].
  - destruct (@validation_ratio_lookup 250 3 1) as (r & Hr & _ & Hout & _).
    injection Hr as <-. apply Hout. simpl. lia.
Defined.

(** ** The training loop: failures and the step counter *)

Lemma bind_ok_inv {A B} (m : M event A) (k : A -> M event B)
      (log : list event) (b : B) :
  bind m k = (log, Ok b) ->
  exists a log1 log2, m = (log1, Ok a) /\ k a = (log2, Ok b) /\ log = log1 ++ log2.
Proof.
  destruct m as [log1 [a|e]]; simpl; [|discriminate].
  destruct (k a) as [log2 r] eqn:Hk. intros H. injection H as <- ->.
  now exists a, log1, log2.
Qed.

Section TrainingLoopFacts.

Variable args : arguments.
Variables ko_voc en_voc : vocabulary.
Variables train_loader val_loader : list batch.
Variable model : ids2d -> ids2d -> Q -> logits.
Variable criterion : logits -> list Z -> pyfloat.
Variable math_exp : pyfloat -> result pyfloat.
Variable clean : string -> string.
Variable n_gram_precision : string -> string -> pyfloat.
Variable interrupt : nat -> nat -> option phase.

Local Abbreviation train_step :=
  (Trainer.train_step args ko_voc en_voc val_loader model criterion math_exp
                      clean n_gram_precision interrupt) (only parsing).
Local Abbreviation guarded_step :=
  (Trainer.guarded_step args ko_voc en_voc val_loader model criterion math_exp
                        clean n_gram_precision interrupt) (only parsing).
Local Abbreviation train_epoch :=
  (Trainer.train_epoch args ko_voc en_voc train_loader val_loader model criterion
                       math_exp clean n_gram_precision interrupt) (only parsing).
Local Abbreviation train :=
  (Trainer.train args ko_voc en_voc train_loader val_loader model criterion
                 math_exp clean n_gram_precision interrupt) (only parsing).

(** X7.  An exception other than [KeyboardInterrupt] raised in a training
    step is not handled: no checkpoint is saved, the exception leaves the
    step, and the loop over the batches stops with it without running the
    remaining batches. *)
Theorem other_exception_stops_epoch
        (train_ratios val_ratios : list Q) (epoch i : nat) (data : batch)
        (rest : list (nat * batch)) (step : nat) (log : list event) (e : exn) :
  train_step train_ratios val_ratios epoch i data step = (log, Raise e) ->
  e <> KeyboardInterrupt ->
  guarded_step train_ratios val_ratios epoch (i, data) step = (log, Raise e)
  /\ for_each ((i, data) :: rest) step (guarded_step train_ratios val_ratios epoch)
     = (log, Raise e).
Proof.
  intros Hstep Hne.
  assert (Hguard : guarded_step train_ratios val_ratios epoch (i, data) step
                   = (log, Raise e)).
  { unfold Trainer.guarded_step, try_except. cbn [fst snd]. rewrite Hstep.
    destruct e; try reflexivity. now contradiction Hne. }
  split; [exact Hguard|].
  cbn [for_each]. rewrite Hguard. reflexivity.
Qed.

(** A completed step body returns the step counter plus one. *)
Lemma train_step_increments
      (train_ratios val_ratios : list Q) (epoch i : nat) (data : batch)
      (step step' : nat) (log : list event) :
  train_step train_ratios val_ratios epoch i data step = (log, Ok step') ->
  step' = step + 1.
Proof.
  unfold Trainer.train_step. intros H.
  repeat
    (first
       [ apply bind_ok_inv in H; destruct H as (? & ? & ? & _ & H & _)
       | match type of H with
         | (let '(_, _) := ?r in _) = _ => destruct r
         end ]).
  unfold ret in H. now injection H as _ <-.
Qed.

Lemma guarded_step_outcomes
      (train_ratios val_ratios : list Q) (epoch i : nat) (data : batch)
      (step step' : nat) (log : list event) :
  guarded_step train_ratios val_ratios epoch (i, data) step = (log, Ok step') ->
  (step' = step + 1
   /\ train_step train_ratios val_ratios epoch i data step = (log, Ok step'))
  \/ (step' = step
      /\ exists log0,
           train_step train_ratios val_ratios epoch i data step
           = (log0, Raise KeyboardInterrupt)
           /\ log = log0 ++ [ESave epoch step]).
Proof.
  unfold Trainer.guarded_step, try_except. cbn [fst snd].
  destruct (Trainer.train_step _ _ _ _ _ _ _ _ _ _ _ _ _ _ _ _)
    as [log0 [s|e]] eqn:Hstep.
  - intros H. injection H as <- <-. left. split; [|reflexivity].
    now apply train_step_increments in Hstep.
  - destruct e; cbn [exn_eqb]; try discriminate.
    cbn. intros H. injection H as <- <-. right. split; [reflexivity|].
    now exists log0.
Qed.

(** X8.  A guarded training step that ends normally either completed, and
    then advanced the step counter by exactly one, or was interrupted, and
    then left the counter unchanged after the handler's save. *)
Theorem guarded_step_counter
        (train_ratios val_ratios : list Q) (epoch i : nat) (data : batch)
        (step step' : nat) (log : list event) :
  guarded_step train_ratios val_ratios epoch (i, data) step = (log, Ok step') ->
  (step' = step + 1
   /\ train_step train_ratios val_ratios epoch i data step = (log, Ok step'))
  \/ (step' = step
      /\ exists log0,
           train_step train_ratios val_ratios epoch i data step
           = (log0, Raise KeyboardInterrupt)
           /\ log = log0 ++ [ESave epoch step]).
Proof.
  intros H. apply guarded_step_outcomes in H. destruct H as [Hdone|Hcaught].
  - left. exact Hdone.
  - right. exact Hcaught.
Qed.

Lemma for_each_counter_bounds {A} (body : A -> nat -> M event nat) :
  (forall x s s' log, body x s = (log, Ok s') -> s <= s' <= s + 1) ->
  forall xs s s' log,
    for_each xs s body = (log, Ok s') -> s <= s' <= s + List.length xs.
Proof.
  intros Hbody. induction xs as [|x xs IH]; intros s s' log H.
  - injection H as _ <-. simpl. lia.
  - cbn [for_each] in H. apply bind_ok_inv in H.
    destruct H as (s1 & log1 & log2 & H1 & H2 & _).
    apply Hbody in H1. apply IH in H2. simpl. lia.
Qed.

(** X9.  Over one epoch that ends normally the step counter never decreases
    and grows by at most the number of batches. *)
Theorem train_epoch_counter_bounds
        (train_ratios val_ratios : list Q) (epoch step step' : nat)
        (log : list event) :
  train_epoch train_ratios val_ratios epoch step = (log, Ok step') ->
  step <= step' <= step + List.length train_loader.
Proof.
  unfold Trainer.train_epoch. intros H.
  apply for_each_counter_bounds in H.
  - unfold enumerate in H. rewrite length_combine, length_seq in H. lia.
  - intros [i data] s s' log' Hg.
    apply guarded_step_outcomes in Hg. destruct Hg as [[-> _]|[-> _]]; lia.
Qed.

(** X10.  With a learning method that is not supported, [train] raises
    [NotImplementedError] before any model invocation, log line or save. *)
Theorem train_unsupported_method_fails_first :
  learning_method args <> Teacher_Forcing ->
  learning_method args <> Scheduled_Sampling ->
  learning_method args <> Mixed_Sampling ->
  train = ([], Raise NotImplementedError).
Proof.
  intros H1 H2 H3. unfold Trainer.train, cal_teacher_forcing_ratio at 1.
  apply String.eqb_neq in H1, H2, H3. rewrite H1, H2, H3. reflexivity.
Qed.

End TrainingLoopFacts.

(** X7 on the toy loader with a zero logging interval: the first step raises
    [ZeroDivisionError] after its forward pass, and the second batch is not
    run. *)
Lemma other_exception_stops_epoch_witness :
  for_each [(0, Toy.b0); (1, Toy.b1)] 0
    (Trainer.guarded_step
       {| epochs := 1; learning_method := Scheduled_Sampling; sequence_size := 2;
          train_step_print := 0; val_step_print := 1000; step_save := 1000 |}
       Toy.voc Toy.voc [Toy.b0] Toy.model Toy.criterion Toy.math_exp Toy.clean
       Toy.n_gram_precision Toy.no_interrupt [1; 1 # 2; 0]%Q [1%Q] 0)
  = ([EForward true [[3; 0]%Z] [[1; 3]%Z] 1], Raise ZeroDivisionError).
Proof.
  eapply proj2. eapply other_exception_stops_epoch;
    [vm_compute; reflexivity|discriminate].
Defined.

(** X8 on the first toy step without an interrupt: the step body completed
    with counter 1. *)
Lemma guarded_step_counter_witness :
  exists log,
    Trainer.train_step (Toy.args Scheduled_Sampling 1) Toy.voc Toy.voc [Toy.b0]
      Toy.model Toy.criterion Toy.math_exp Toy.clean Toy.n_gram_precision
      Toy.no_interrupt [1; 1 # 2; 0]%Q [1%Q] 0 0 Toy.b0 0
    = (log, Ok 1).
Proof.
  eexists.
  edestruct (@guarded_step_counter (Toy.args Scheduled_Sampling 1) Toy.voc Toy.voc
               [Toy.b0] Toy.model Toy.criterion Toy.math_exp Toy.clean
               Toy.n_gram_precision Toy.no_interrupt
               [1; 1 # 2; 0]%Q [1%Q] 0 0 Toy.b0 0 1)
    as [[_ Hdone]|[Hstay _]].
  - vm_compute. reflexivity.
  - exact Hdone.
  - discriminate Hstay.
Defined.

(** X9 on the toy epoch of two batches: the counter goes from 0 to 2. *)
Lemma train_epoch_counter_bounds_witness :
  0 <= 2 <= 0 + List.length [Toy.b0; Toy.b1].
Proof.
  eapply (@train_epoch_counter_bounds (Toy.args Scheduled_Sampling 1) Toy.voc
            Toy.voc [Toy.b0; Toy.b1] [Toy.b0] Toy.model Toy.criterion
            Toy.math_exp Toy.clean Toy.n_gram_precision Toy.no_interrupt
            [1; 1 # 2; 0]%Q [1%Q] 0 0 2).
  vm_compute. reflexivity.
Defined.

(** X10 on the toy run with an unknown method name. *)
Lemma train_unsupported_method_fails_first_witness :
  Toy.train "Beam_Search"%string 3 Toy.no_interrupt
  = ([], Raise NotImplementedError).
Proof.
  apply train_unsupported_method_fails_first; discriminate.
Defined.

(** ** Validation: what it does and what it never does *)

Lemma bind_log_all {A B} (P : event -> Prop) (m : M event A) (k : A -> M event B) :
  Forall P (fst m) ->
  (forall a, Forall P (fst (k a))) ->
  Forall P (fst (bind m k)).
Proof.
  intros Hm Hk. destruct m as [log [a|e]]; simpl in *; [|exact Hm].
  specialize (Hk a). destruct (k a) as [log' r]. simpl in *.
  apply Forall_app. now split.
Qed.

Lemma for_each_log_all {A S} (P : event -> Prop) (body : A -> S -> M event S) :
  (forall x s, Forall P (fst (body x s))) ->
  forall xs s, Forall P (fst (for_each xs s body)).
Proof.
  intros Hbody. induction xs as [|x xs IH]; intros s; cbn [for_each].
  - constructor.
  - apply bind_log_all; [apply Hbody|apply IH].
Qed.

Lemma bind_keeps_out_from {A B} (m : M event A) (k : A -> M event B) (e : exn) :
  snd m <> Raise e ->
  (forall a log, m = (log, Ok a) -> snd (k a) <> Raise e) ->
  snd (bind m k) <> Raise e.
Proof.
  intros Hm Hk. destruct m as [log [a|e']]; simpl in *.
  - specialize (Hk a log eq_refl). now destruct (k a).
  - intros H. apply Hm. injection H as ->. reflexivity.
Qed.

Lemma for_each_invariant {A S} (I : S -> Prop) (body : A -> S -> M event S) :
  (forall x s s' log, I s -> body x s = (log, Ok s') -> I s') ->
  forall xs s s' log, I s -> for_each xs s body = (log, Ok s') -> I s'.
Proof.
  intros Hbody. induction xs as [|x xs IH]; intros s s' log Hs H.
  - injection H as _ <-. exact Hs.
  - cbn [for_each] in H. apply bind_ok_inv in H.
    destruct H as (s1 & log1 & log2 & H1 & H2 & _).
    eapply IH; [|exact H2]. eapply Hbody; eassumption.
Qed.

Lemma max_indices_only_index_error (out : logits) (e : exn) :
  Torch.max_indices out = Raise e -> e = IndexError.
Proof.
  unfold Torch.max_indices. induction out as [|row out IH]; [discriminate|].
  cbn [map_result]. destruct row as [|x row]; cbn [Torch.argmax and_then].
  - intros H. now injection H.
  - destruct (map_result Torch.argmax out); cbn [and_then]; [discriminate|].
    intros H. injection H as ->. now apply IH.
Qed.

Lemma getitem_only_index_error {A} (l : list A) (i : nat) (e : exn) :
  getitem l i = Raise e -> e = IndexError.
Proof.
  unfold getitem. destruct (nth_error l i); [discriminate|].
  intros H. now injection H.
Qed.

Section ValidationFacts.

Variable args : arguments.
Variables ko_voc en_voc : vocabulary.
Variable val_loader : list batch.
Variable model : ids2d -> ids2d -> Q -> logits.
Variable criterion : logits -> list Z -> pyfloat.
Variable math_exp : pyfloat -> result pyfloat.
Variable clean : string -> string.
Variable n_gram_precision : string -> string -> pyfloat.
Variable rate : Q.

Local Abbreviation val :=
  (Trainer.val args ko_voc en_voc val_loader model criterion math_exp
               clean n_gram_precision rate) (only parsing).

(** X11.  Whatever its outcome, a validation pass only runs the model in
    evaluation mode with the rate it was given and prints lines: it never
    updates parameters, never saves a checkpoint and never runs a
    training-mode forward pass. *)
Theorem val_only_evaluates :
  Forall (fun e => match e with
                   | EForward false _ _ r => r = rate
                   | EPrint _ => True
                   | _ => False
                   end) (fst val).
Proof.
  unfold Trainer.val. apply bind_log_all.
  - apply for_each_log_all. intros data st. unfold Trainer.val_batch.
    apply bind_log_all; [repeat constructor|]. intros _.
    apply bind_log_all; [constructor|]. intros [[loss accuracy] ppl].
    constructor.
  - intros st. destruct (last_iter st) as [[data output]|]; [|constructor].
    repeat (apply bind_log_all; [repeat constructor|intros ?]).
    constructor.
Qed.

Lemma loss_accuracy_no_zero_division (out : logits) (tar : list Z) :
  (forall x, math_exp x <> Raise ZeroDivisionError) ->
  Trainer.loss_accuracy en_voc criterion math_exp out tar
  <> Raise ZeroDivisionError.
Proof.
  intros Hexp. unfold Trainer.loss_accuracy, Trainer.cross_entropy.
  destruct (_ =? _); cbn [and_then]; [|discriminate].
  destruct (math_exp _) as [ppl|e] eqn:He; cbn [and_then].
  - destruct (Torch.max_indices out) as [indices|e] eqn:Hi; cbn [and_then].
    + discriminate.
    + apply max_indices_only_index_error in Hi. subst e. discriminate.
  - intros H. injection H as ->. now apply (Hexp _ He).
Qed.

(** X12.  When [math.exp] does not raise it, a validation pass never ends
    with [ZeroDivisionError]: the averages are only computed after at least
    one batch was counted.  On an empty validation loader the pass raises
    [UnboundLocalError] instead, before any model invocation. *)
Theorem val_never_divides_by_zero :
  (forall x, math_exp x <> Raise ZeroDivisionError) ->
  snd val <> Raise ZeroDivisionError
  /\ (val_loader = [] -> val = ([], Raise UnboundLocalError)).
Proof.
  intros Hexp. split; [|intros ->; reflexivity].
  unfold Trainer.val. apply bind_keeps_out_from.
  - apply for_each_keeps_out. intros data st. unfold Trainer.val_batch.
    apply bind_keeps_out; [discriminate|]. intros _.
    apply bind_keeps_out.
    + unfold lift. cbn [snd]. now apply loss_accuracy_no_zero_division.
    + intros [[loss accuracy] ppl]. discriminate.
  - intros st log Hloop.
    assert (Hcount : last_iter st = None \/ 1 <= count st).
    { eapply (for_each_invariant
                (fun s => last_iter s = None \/ 1 <= count s)).
      3: exact Hloop.
      2: now left.
      intros data s s' log' _ Hbatch. right.
      unfold Trainer.val_batch in Hbatch.
      apply bind_ok_inv in Hbatch. destruct Hbatch as (? & ? & ? & _ & Hbatch & _).
      apply bind_ok_inv in Hbatch.
      destruct Hbatch as ([[loss accuracy] ppl] & ? & ? & _ & Hbatch & _).
      unfold ret in Hbatch. injection Hbatch as _ <-. cbn [count]. lia. }
    destruct (last_iter st) as [[data output]|]; [|discriminate].
    destruct Hcount as [Hnone|Hcount]; [discriminate|].
    destruct (count st) as [|n] eqn:Hn; [lia|].
    repeat
      (apply bind_keeps_out;
       [ first
           [ discriminate
           | unfold lift; cbn [snd]; intros Hraise;
             first [ apply max_indices_only_index_error in Hraise
                   | apply getitem_only_index_error in Hraise ];
             discriminate ]
       | intros ? ]).
    discriminate.
Qed.

End ValidationFacts.

(** X12 on the toy validation loader of one batch, and on an empty one. *)
Lemma val_never_divides_by_zero_witness :
  snd (Trainer.val (Toy.args Teacher_Forcing 1) Toy.voc Toy.voc [Toy.b0]
                   Toy.model Toy.criterion Toy.math_exp Toy.clean
                   Toy.n_gram_precision 1)
  <> Raise ZeroDivisionError
  /\ Trainer.val (Toy.args Teacher_Forcing 1) Toy.voc Toy.voc []
                 Toy.model Toy.criterion Toy.math_exp Toy.clean
                 Toy.n_gram_precision 1
     = ([], Raise UnboundLocalError).
Proof.
  assert (Hexp : forall x, Toy.math_exp x <> Raise ZeroDivisionError).
  { intros [q| | |]; simpl; try discriminate.
    destruct (Qle_bool 710 q); discriminate. }
  split.
  - apply val_never_divides_by_zero. exact Hexp.
  - apply val_never_divides_by_zero; [exact Hexp|reflexivity].
Defined.

(** ** Accuracy *)

Lemma count_valid_count (invalid_targets : list bool) :
  Trainer.count_valid invalid_targets = count_occ bool_dec invalid_targets false.
Proof.
  unfold Trainer.count_valid.
  assert (H : forall total,
             fold_left (fun total i => if Bool.eqb i false then total + 1 else total)
                       invalid_targets total
             = total + count_occ bool_dec invalid_targets false).
  { induction invalid_targets as [|b l IH]; intros total; simpl; [lia|].
    rewrite IH. destruct b; simpl; lia. }
  apply (H 0).
Qed.

Lemma masked_sum_le_valid (t mask : list bool) :
  Torch.sum (Torch.masked_fill t mask false) <= count_occ bool_dec mask false.
Proof.
  unfold Torch.sum, Torch.masked_fill. revert t.
  induction mask as [|m mask IH]; intros [|x t]; simpl; try lia.
  specialize (IH t). destruct m, x; simpl; lia.
Qed.

Lemma masked_sum_all_correct (pad : Z) (indices tar : list Z) :
  Forall2 (fun idx t => t <> pad -> idx = t) indices tar ->
  Torch.sum (Torch.masked_fill (Torch.eq indices tar)
                               (Torch.eq_scalar tar pad) false)
  = count_occ bool_dec (Torch.eq_scalar tar pad) false.
Proof.
  induction 1 as [|idx t indices tar Hone _ IH]; [reflexivity|].
  unfold Torch.sum, Torch.masked_fill, Torch.eq, Torch.eq_scalar in *.
  simpl. destruct (Z.eqb_spec t pad) as [->|Hne]; simpl.
  - exact IH.
  - rewrite (Hone Hne), Z.eqb_refl. simpl. now rewrite IH.
Qed.

Lemma some_valid_target (pad : Z) (tar : list Z) :
  Exists (fun t => t <> pad) tar ->
  1 <= count_occ bool_dec (Torch.eq_scalar tar pad) false.
Proof.
  induction 1 as [t tar Hne|t tar _ IH]; simpl.
  - destruct (Z.eqb_spec t pad); [contradiction|]. simpl. lia.
  - destruct (Z.eqb t pad); simpl; lia.
Qed.

Lemma torch_div_in_unit (x n : nat) :
  x <= n -> 1 <= n ->
  exists q, torch_div x n = Fin q /\ (0 <= q <= 1)%Q.
Proof.
  intros Hle Hpos. destruct n as [|n]; [lia|].
  eexists. split; [reflexivity|]. rewrite Qred_correct.
  assert (Hd : (0 < inject_Z (Z.of_nat (S n)))%Q).
  { rewrite <- (Zlt_Qlt 0). lia. }
  split.
  - apply Qle_shift_div_l; [exact Hd|]. rewrite Qmult_0_l.
    rewrite <- (Zle_Qle 0). lia.
  - apply Qle_shift_div_r; [exact Hd|]. rewrite Qmult_1_l.
    rewrite <- Zle_Qle. lia.
Qed.

Lemma torch_div_same (n : nat) : 1 <= n -> torch_div n n = Fin 1.
Proof.
  intros Hpos. destruct n as [|n]; [lia|]. unfold torch_div. f_equal.
  change 1%Q with (Qred 1). apply Qred_complete. field.
  apply (@qnat_nonzero (S n)). lia.
Qed.

Section AccuracyFacts.

Variable en_voc : vocabulary.
Variable criterion : logits -> list Z -> pyfloat.
Variable math_exp : pyfloat -> result pyfloat.

(** X13.  Whenever [loss_accuracy] returns on a batch with at least one
    target that is not the pad id, the accuracy is a finite number between
    0 and 1. *)
Theorem accuracy_in_unit_interval
        (out : logits) (tar : list Z) (loss accuracy ppl : pyfloat) :
  Trainer.loss_accuracy en_voc criterion math_exp out tar
  = Ok (loss, accuracy, ppl) ->
  Exists (fun t => t <> PieceToId en_voc "<pad>"%string) tar ->
  exists q, accuracy = Fin q /\ (0 <= q <= 1)%Q.
Proof.
  unfold Trainer.loss_accuracy. intros H Hvalid.
  destruct (Trainer.cross_entropy _ _ _); cbn [and_then] in H; [|discriminate].
  destruct (math_exp _); cbn [and_then] in H; [|discriminate].
  destruct (Torch.max_indices out) as [indices|]; cbn [and_then] in H;
    [|discriminate].
  injection H as _ <- _.
  rewrite count_valid_count. apply torch_div_in_unit.
  - apply masked_sum_le_valid.
  - now apply some_valid_target.
Qed.

(** X14.  When the predicted id equals the target at every position whose
    target is not the pad id, and there is such a position, the accuracy is
    exactly 1.0, whatever is predicted at the pad positions. *)
Theorem accuracy_perfect_prediction
        (out : logits) (tar indices : list Z) (ppl : pyfloat) :
  List.length out = List.length tar ->
  math_exp (criterion out tar) = Ok ppl ->
  Torch.max_indices out = Ok indices ->
  Forall2 (fun idx t => t <> PieceToId en_voc "<pad>"%string -> idx = t)
          indices tar ->
  Exists (fun t => t <> PieceToId en_voc "<pad>"%string) tar ->
  Trainer.loss_accuracy en_voc criterion math_exp out tar
  = Ok (criterion out tar, Fin 1, ppl).
Proof.
  intros Hshape Hexp Hindices Hcorrect Hvalid.
  unfold Trainer.loss_accuracy, Trainer.cross_entropy.
  apply Nat.eqb_eq in Hshape. rewrite Hshape. cbn [and_then].
  rewrite Hexp. cbn [and_then]. rewrite Hindices. cbn [and_then].
  unfold Trainer.en_pad.
  rewrite count_valid_count, (masked_sum_all_correct Hcorrect).
  rewrite torch_div_same by now apply some_valid_target.
  reflexivity.
Qed.

End AccuracyFacts.

(** X13 on toy logits predicting the ids 3, 2 against the targets 4, 3:
    no position is right and the accuracy is 0. *)
Lemma accuracy_in_unit_interval_witness :
  exists q, Fin 0 = Fin q /\ (0 <= q <= 1)%Q.
Proof.
  apply (@accuracy_in_unit_interval Toy.voc Toy.criterion Toy.math_exp
           (Toy.model [] [[1; 4]%Z] 1) [4; 3]%Z (Fin (1 # 2)) (Fin 0) (Fin (3 # 2))).
  - vm_compute. reflexivity.
  - constructor. discriminate.
Defined.

(** X14 on toy logits predicting the ids 3, 2 against the targets 3, pad. *)
Lemma accuracy_perfect_prediction_witness :
  Trainer.loss_accuracy Toy.voc Toy.criterion Toy.math_exp
    (Toy.model [] [[1; 3]%Z] 1) [3; 0]%Z
  = Ok (Fin (1 # 2), Fin 1, Fin (3 # 2)).
Proof.
  apply (@accuracy_perfect_prediction Toy.voc Toy.criterion Toy.math_exp
           (Toy.model [] [[1; 3]%Z] 1) [3; 0]%Z [3; 2]%Z (Fin (3 # 2))).
  - reflexivity.
  - reflexivity.
  - reflexivity.
  - repeat constructor. intros H. now contradiction H.
  - constructor. discriminate.
Defined.

(** ** Decoding ids to text *)

Lemma pieces_until_no_stop (voc : vocabulary) (stop : string) (indices : list Z) :
  Forall (fun id => IdToPiece voc id <> stop) indices ->
  pieces_until voc stop indices = map (IdToPiece voc) indices.
Proof.
  induction 1 as [|id indices Hid _ IH]; [reflexivity|].
  cbn [pieces_until map]. apply String.eqb_neq in Hid. rewrite Hid.
  now rewrite IH.
Qed.

Lemma pieces_until_first_stop (voc : vocabulary) (stop : string)
      (before after : list Z) (id : Z) :
  Forall (fun id => IdToPiece voc id <> stop) before ->
  IdToPiece voc id = stop ->
  pieces_until voc stop (before ++ id :: after) = map (IdToPiece voc) before.
Proof.
  intros Hbefore Hid.
  induction Hbefore as [|x before Hx _ IH]; cbn [pieces_until map app].
  - rewrite Hid, String.eqb_refl. reflexivity.
  - apply String.eqb_neq in Hx. rewrite Hx. now rewrite IH.
Qed.

(** X15.  [tensor2sentence] decodes the ids up to the first one whose piece
    is the end token: the pieces before it are joined in order, and neither
    the end token nor anything predicted after it reaches the text.  Without
    an end token all ids are decoded. *)
Theorem tensor2sentence_stops_at_end
        (en_voc : vocabulary) (clean : string -> string) (before : list Z) :
  Forall (fun id => IdToPiece en_voc id <> "</s>"%string) before ->
  Translation.tensor2sentence en_voc clean before
  = clean (join (map (IdToPiece en_voc) before))
  /\ forall (eos : Z) (after : list Z),
       IdToPiece en_voc eos = "</s>"%string ->
       Translation.tensor2sentence en_voc clean (before ++ eos :: after)
       = clean (join (map (IdToPiece en_voc) before)).
Proof.
  intros Hbefore. unfold Translation.tensor2sentence. split.
  - now rewrite pieces_until_no_stop.
  - intros eos after Heos. now rewrite pieces_until_first_stop.
Qed.

(** X15 on the toy vocabulary: whatever follows the end id 2 is dropped. *)
Lemma tensor2sentence_stops_at_end_witness :
  Translation.tensor2sentence Toy.voc Toy.clean [3; 4; 2; 3; 3]%Z = "ab"%string
  /\ Translation.tensor2sentence Toy.voc Toy.clean [3; 4]%Z = "ab"%string.
Proof.
  destruct (@tensor2sentence_stops_at_end Toy.voc Toy.clean [3; 4]%Z)
    as [Hall Hcut].
  - repeat constructor; discriminate.
  - split.
    + change [3; 4; 2; 3; 3]%Z with ([3; 4] ++ 2 :: [3; 3])%Z.
      rewrite (Hcut 2%Z [3; 3]%Z); reflexivity.
    + rewrite Hall. reflexivity.
Defined.

(** ** Padding *)

(** X16.  Padding is idempotent: a padded row is left unchanged by a second
    padding, with any pad id. *)
Theorem padding_idempotent
        (seq_len : nat) (idx_list : list Z) (padding_id padding_id' : Z) :
  Translation.padding seq_len
    (Translation.padding seq_len idx_list padding_id) padding_id'
  = Translation.padding seq_len idx_list padding_id.
Proof.
  rewrite (@padding_long seq_len (Translation.padding seq_len idx_list padding_id))
    by (rewrite padding_length; lia).
  rewrite <- (padding_length seq_len idx_list padding_id) at 1.
  apply firstn_all.
Qed.

(** X17.  Position [i < seq_len] of a padded row holds id [i] of the input
    when the input has one, and the pad id otherwise. *)
Theorem padding_entries
        (seq_len : nat) (idx_list : list Z) (padding_id : Z) (i : nat) :
  i < seq_len ->
  nth_error (Translation.padding seq_len idx_list padding_id) i
  = Some (nth i idx_list padding_id).
Proof.
  intros Hi.
  destruct (Nat.lt_ge_cases (List.length idx_list) seq_len) as [Hshort|Hlong].
  - rewrite padding_short by assumption.
    destruct (Nat.lt_ge_cases i (List.length idx_list)) as [Hin|Hout].
    + rewrite nth_error_app1 by assumption. now apply nth_error_nth'.
    + rewrite nth_error_app2 by assumption.
      rewrite nth_overflow by assumption.
      rewrite (nth_error_nth' _ padding_id) by (rewrite repeat_length; lia).
      now rewrite nth_repeat.
  - rewrite padding_long by assumption.
    rewrite nth_error_firstn.
    apply Nat.ltb_lt in Hi as Hi'. rewrite Hi'.
    apply nth_error_nth'. lia.
Qed.

(** X17 on a two-id row padded to four: position 1 holds the input id,
    position 3 the pad id. *)
Lemma padding_entries_witness :
  nth_error (Translation.padding 4 [3; 4]%Z 0%Z) 1 = Some 4%Z
  /\ nth_error (Translation.padding 4 [3; 4]%Z 0%Z) 3 = Some 0%Z.
Proof.
  split.
  - apply (@padding_entries 4 [3; 4]%Z 0%Z 1). lia.
  - apply (@padding_entries 4 [3; 4]%Z 0%Z 3). lia.
Defined.

(** ** Batch translation *)

Lemma slice_from_start {A} (l : list A) (n : nat) : slice l 0 n = firstn n l.
Proof.
  unfold slice. now rewrite Nat.sub_0_r.
Qed.

(** X18.  [get_test_loader] returns the first 100 lines of each file: each
    result is a prefix of its file with [min(len(file), 100)] lines, and the
    two files are cut independently of one another. *)
Theorem get_test_loader_prefixes (x_file y_file : list string) :
  x_file = fst (Translation.get_test_loader x_file y_file) ++ skipn 100 x_file
  /\ y_file = snd (Translation.get_test_loader x_file y_file) ++ skipn 100 y_file
  /\ List.length (fst (Translation.get_test_loader x_file y_file))
     = Nat.min 100 (List.length x_file)
  /\ List.length (snd (Translation.get_test_loader x_file y_file))
     = Nat.min 100 (List.length y_file).
Proof.
  unfold Translation.get_test_loader, Translation.batch_size. cbn [fst snd].
  rewrite !slice_from_start, !firstn_skipn, !length_firstn.
  repeat split; reflexivity.
Qed.

Lemma concat_singletons {A B} (f : A -> B) (l : list A) :
  List.concat (map (fun a => [f a]) l) = map f l.
Proof.
  induction l as [|a l IH]; [reflexivity|].
  cbn [map List.concat app]. now rewrite IH.
Qed.

Lemma stack_rows {A} (f : A -> list Z) (l : list A) :
  l <> [] ->
  Translation.stack_squeeze (map (fun a => [f a]) l) = Ok (map f l).
Proof.
  intros Hne. rewrite <- (concat_singletons f l).
  destruct l as [|a l]; [contradiction|]. reflexivity.
Qed.

Section TranslationFacts.

Variable seq_len : nat.
Variables ko_voc en_voc : vocabulary.
Variable model : ids2d -> ids2d -> Q -> logits.
Variable clean : string -> string.

(** X19.  On an empty source file [batch_transform] raises [RuntimeError]
    from stacking no rows, before the model is invoked or anything is
    printed, whatever the target file holds. *)
Theorem batch_transform_empty_file (y_file : list string) :
  Translation.batch_transform seq_len ko_voc en_voc model clean [] y_file
  = ([], Raise RuntimeError).
Proof.
  unfold Translation.batch_transform, Translation.get_test_loader.
  rewrite !slice_from_start. reflexivity.
Qed.

(** X20.  On a source file with at least one line [batch_transform] invokes
    the model first, in evaluation mode with teacher-forcing rate 0, on one
    source row and one decoder seed per kept line: [min(len(file), 100)]
    rows, every source row of length [seq_len] and every seed equal to the
    padded start token. *)
Theorem batch_transform_model_input (x_file y_file : list string) :
  x_file <> [] ->
  exists src tar log r,
    Translation.batch_transform seq_len ko_voc en_voc model clean x_file y_file
    = (EForward false src tar 0 :: log, r)
    /\ List.length src = Nat.min 100 (List.length x_file)
    /\ List.length tar = List.length src
    /\ Forall (fun row => List.length row = seq_len) src
    /\ Forall (fun row => [row] = Translation.tar_input seq_len ko_voc en_voc) tar.
Proof.
  intros Hne.
  pose proof (get_test_loader_bounded x_file y_file) as Hbound.
  unfold Translation.batch_transform.
  unfold Translation.get_test_loader in *. cbn [fst] in Hbound.
  rewrite !slice_from_start in *.
  apply Nat.ltb_ge in Hbound. rewrite Hbound.
  assert (Hkept : firstn Translation.batch_size x_file <> []).
  { destruct x_file; [contradiction|discriminate]. }
  unfold Translation.src_input, Translation.tar_input, lift. cbv zeta.
  pose proof (stack_rows
                (fun sentence =>
                   Translation.padding seq_len (EncodeAsIds ko_voc sentence)
                                       (PieceToId ko_voc "<pad>"%string)) Hkept)
    as Hsrc.
  pose proof (stack_rows
                (fun _ : string =>
                   Translation.padding seq_len [PieceToId en_voc "<s>"%string]
                                       (PieceToId ko_voc "<pad>"%string)) Hkept)
    as Htar.
  cbv beta in Hsrc, Htar. unfold ids2d in *.
  rewrite Hsrc, Htar, !bind_value, bind_emit.
  do 4 eexists. split; [reflexivity|].
  rewrite !length_map, length_firstn. unfold Translation.batch_size.
  repeat split.
  - apply Forall_forall. intros row Hrow. apply in_map_iff in Hrow.
    destruct Hrow as (sentence & <- & _). apply padding_length.
  - apply Forall_forall. intros row Hrow. apply in_map_iff in Hrow.
    destruct Hrow as (sentence & <- & _). reflexivity.
Qed.

(** X21.  [transform] invokes the model exactly once, in evaluation mode
    with teacher-forcing rate 0, on one source row and one decoder seed of
    length [seq_len]; everything else it does is printing. *)
Theorem transform_model_input (sentence : string) :
  exists row seed log r,
    Translation.transform seq_len ko_voc en_voc model clean sentence
    = (EForward false [row] [seed] 0 :: log, r)
    /\ List.length row = seq_len
    /\ List.length seed = seq_len
    /\ Forall (fun e => match e with EPrint _ => True | _ => False end) log.
Proof.
  unfold Translation.transform. rewrite bind_emit.
  do 4 eexists. split; [reflexivity|].
  split; [apply padding_length|]. split; [apply padding_length|].
  apply bind_log_all; [constructor|]. intros indices.
  apply bind_log_all; repeat constructor.
Qed.

End TranslationFacts.

(** X20 on a toy file of three lines with [seq_len = 3]. *)
Lemma batch_transform_model_input_witness :
  exists log r,
    Toy.batch_transform 3
    = (EForward false [[3; 4; 0]; [3; 4; 0]; [3; 4; 0]]%Z
                      [[1; 0; 0]; [1; 0; 0]; [1; 0; 0]]%Z 0 :: log, r).
Proof.
  destruct (@batch_transform_model_input 3 Toy.voc Toy.voc Toy.model Toy.clean
              (Toy.lines 3) (Toy.lines 3))
    as (src & tar & log & r & Hrun & _); [discriminate|].
  exists log, r. unfold Toy.batch_transform. rewrite Hrun.
  vm_compute in Hrun. injection Hrun as <- <- _ _. reflexivity.
Defined.

(** ** Checkpoint file names *)

Lemma string_length_append (s t : string) :
  String.length (String.append s t) = String.length s + String.length t.
Proof.
  induction s as [|c s IH]; simpl; [reflexivity|]. now rewrite IH.
Qed.

Lemma string_append_cancel_r (s1 s2 t : string) :
  String.append s1 t = String.append s2 t -> s1 = s2.
Proof.
  revert s2. induction s1 as [|c s1 IH]; intros [|c2 s2] H; simpl in H.
  - reflexivity.
  - apply (f_equal String.length) in H. simpl in H.
    rewrite string_length_append in H. lia.
  - apply (f_equal String.length) in H. simpl in H.
    rewrite string_length_append in H. lia.
  - injection H as -> H. f_equal. now apply IH.
Qed.

Lemma digits_value_zeros (k : nat) (s : string) :
  digits_value (String.append (zeros k) s) = digits_value s.
Proof.
  unfold digits_value. induction k as [|k IH]; [reflexivity|].
  cbn [zeros String.append NilEmpty.uint_of_string].
  destruct (NilEmpty.uint_of_string (String.append (zeros k) s)) as [d|];
    destruct (NilEmpty.uint_of_string s) as [d'|]; try discriminate;
    cbn in *; assumption.
Qed.

Lemma digits_value_decimal (n : nat) : digits_value (decimal n) = Some n.
Proof.
  unfold digits_value, decimal, NilZero.string_of_uint.
  pose proof (DecimalNat.Unsigned.of_to n) as Hn.
  destruct (Nat.to_uint n) eqn:Hd;
    try (rewrite <- Hd, NilEmpty.usu; cbn [option_map]; now rewrite Hd, Hn).
  cbn in *. now rewrite <- Hn.
Qed.

Lemma format_zero_filled_value (width n : nat) :
  digits_value (format_zero_filled width n) = Some n.
Proof.
  unfold format_zero_filled. now rewrite digits_value_zeros, digits_value_decimal.
Qed.

(** X22.  The checkpoint file name determines the step: two saves go to the
    same file only when they are made at the same step.  The name is the
    step in decimal, filled with zeros on the left up to six digits and
    never cut, followed by [_model_1.pth]. *)
Theorem model_name_injective (step step' : nat) :
  model_name step = model_name step' <-> step = step'.
Proof.
  split; [|now intros ->].
  unfold model_name. intros H. apply string_append_cancel_r in H.
  apply (f_equal digits_value) in H.
  rewrite !format_zero_filled_value in H. now injection H.
Qed.

(** ** Training without steps *)

Lemma for_each_skips {A S} (body : A -> S -> M event S) (xs : list A) (s : S) :
  (forall x s', body x s' = ret s') -> for_each xs s body = ret s.
Proof.
  intros Hbody. induction xs as [|x xs IH]; [reflexivity|].
  cbn [for_each]. rewrite Hbody. unfold ret. now rewrite bind_value.
Qed.

Lemma supported_schedule_defined (learning_method : string) (total_step : nat) :
  In learning_method [Teacher_Forcing; Scheduled_Sampling; Mixed_Sampling] ->
  exists ratios, cal_teacher_forcing_ratio learning_method total_step = Ok ratios.
Proof.
  intros [<-|[<-|[<-|[]]]]; eexists; reflexivity.
Qed.

(** X23.  With a supported learning method and either no epoch or an empty
    training loader, [train] returns normally without a model invocation, a
    log line or a checkpoint: no final save is made. *)
Theorem train_without_steps
        (args : arguments) (ko_voc en_voc : vocabulary)
        (train_loader val_loader : list batch)
        (model : ids2d -> ids2d -> Q -> logits)
        (criterion : logits -> list Z -> pyfloat)
        (math_exp : pyfloat -> result pyfloat)
        (clean : string -> string)
        (n_gram_precision : string -> string -> pyfloat)
        (interrupt : nat -> nat -> option phase) :
  In (learning_method args) [Teacher_Forcing; Scheduled_Sampling; Mixed_Sampling] ->
  epochs args = 0 \/ train_loader = [] ->
  Trainer.train args ko_voc en_voc train_loader val_loader model criterion
                math_exp clean n_gram_precision interrupt
  = ([], Ok tt).
Proof.
  intros Hmethod Hnone. unfold Trainer.train.
  destruct (supported_schedule_defined
              (epochs args * (List.length train_loader + 1)) Hmethod)
    as [train_ratios Htrain].
  rewrite Htrain. unfold lift.
  change (cal_teacher_forcing_ratio Teacher_Forcing
            (epochs args * (List.length train_loader + 1) / 100 + 1))
    with (Ok (ones (epochs args * (List.length train_loader + 1) / 100 + 1))).
  rewrite !bind_value.
  destruct Hnone as [Hzero|Hempty].
  - rewrite Hzero. reflexivity.
  - rewrite for_each_skips; [reflexivity|].
    intros epoch step. unfold Trainer.train_epoch. now rewrite Hempty.
Qed.

(** X23 on the toy arguments with zero epochs. *)
Lemma train_without_steps_witness :
  Toy.train Mixed_Sampling 0 Toy.no_interrupt = ([], Ok tt).
Proof.
  apply train_without_steps.
  - right. right. left. reflexivity.
  - left. reflexivity.
Defined.

(** ** Batch translation: what is decoded *)

Lemma stack_nonempty (rows : list ids2d) :
  rows <> [] -> Translation.stack_squeeze rows = Ok (List.concat rows).
Proof.
  destruct rows as [|row rows]; [contradiction|]. reflexivity.
Qed.

Lemma for_each_emits {A} (xs : list A) (body : A -> unit -> M event unit)
      (lines : A -> list event) :
  (forall x, body x tt = (lines x, Ok tt)) ->
  for_each xs tt body = (flat_map lines xs, Ok tt).
Proof.
  intros Hbody. induction xs as [|x xs IH]; [reflexivity|].
  cbn [for_each flat_map]. rewrite Hbody. cbn [bind]. now rewrite IH.
Qed.

Lemma row_slices_rows (seq_len B : nat) (indices : list Z) :
  1 <= seq_len ->
  List.length indices = B * seq_len ->
  Translation.row_slices seq_len indices
  = Ok (map (fun i => slice indices (i * seq_len) (i * seq_len + seq_len - 1))
            (seq 0 B)).
Proof.
  intros Hpos Hlen. destruct seq_len as [|s]; [lia|].
  unfold Translation.row_slices. rewrite Hlen, range_rows. cbn [and_then].
  now rewrite map_map.
Qed.

Section BatchDecoding.

Variable seq_len : nat.
Variables ko_voc en_voc : vocabulary.
Variable model : ids2d -> ids2d -> Q -> logits.
Variable clean : string -> string.

(** C10.  In [batch_transform], with [seq_len >= 1] and a prediction whose
    flattened argmax [indices] has [B] rows of [seq_len] positions, the
    sentence printed as prediction number [i] is [tensor2sentence] of the
    slice [[i * seq_len, i * seq_len + seq_len - 1)] of [indices]: exactly
    [seq_len - 1] ids, the first [seq_len - 1] of row [i], so that the last
    predicted position of every row is left out.  The whole run is one model
    invocation followed by the four printed lines of every sentence. *)
Theorem batch_transform_decodes_row_prefixes
        (x_file y_file : list string) (indices : list Z) (B : nat) :
  1 <= seq_len ->
  x_file <> [] ->
  let src_list := firstn 100 x_file in
  let tar_list := firstn 100 y_file in
  let src_inputs :=
    List.concat (map (Translation.src_input seq_len ko_voc) src_list) in
  let tar_inputs :=
    List.concat (map (fun _ : string => Translation.tar_input seq_len ko_voc en_voc)
                     src_list) in
  Torch.max_indices (model src_inputs tar_inputs 0) = Ok indices ->
  List.length indices = B * seq_len ->
  let decoded :=
    map (fun i =>
           Translation.tensor2sentence en_voc clean
             (slice indices (i * seq_len) (i * seq_len + seq_len - 1)))
        (seq 0 B) in
  Translation.batch_transform seq_len ko_voc en_voc model clean x_file y_file
  = (EForward false src_inputs tar_inputs 0
       :: flat_map
            (fun t : string * string * string =>
               let '(src, tar, pred) := t in
               [EPrint (String.append "Korean: "%string src);
                EPrint (String.append "English: "%string tar);
                EPrint (String.append "Predict: "%string pred);
                EPrint "-------------------------"%string])
            (Translation.zip3 src_list tar_list decoded),
     Ok tt)
  /\ forall i, i < B ->
       slice indices (i * seq_len) (i * seq_len + seq_len - 1)
       = firstn (seq_len - 1) (skipn (i * seq_len) indices)
       /\ List.length (slice indices (i * seq_len) (i * seq_len + seq_len - 1))
          = seq_len - 1.
Proof.
  intros Hpos Hne src_list tar_list src_inputs tar_inputs Hindices Hlen decoded.
  split.
  - pose proof (get_test_loader_bounded x_file y_file) as Hbound.
    unfold Translation.batch_transform.
    unfold Translation.get_test_loader in *. cbn [fst] in Hbound.
    rewrite !slice_from_start in *.
    apply Nat.ltb_ge in Hbound. rewrite Hbound.
    change (firstn Translation.batch_size x_file) with src_list.
    change (firstn Translation.batch_size y_file) with tar_list.
    assert (Hkept : src_list <> []).
    { subst src_list. destruct x_file; [contradiction|discriminate]. }
    unfold lift.
    rewrite !stack_nonempty
      by (destruct src_list; [contradiction|discriminate]).
    rewrite !bind_value, bind_emit.
    fold src_inputs tar_inputs. rewrite Hindices, bind_value.
    rewrite (row_slices_rows B indices Hpos Hlen), bind_value, map_map.
    fold decoded.
    rewrite (for_each_emits
               (Translation.zip3 src_list tar_list decoded) _
               (fun t : string * string * string =>
                  let '(src, tar, pred) := t in
                  [EPrint (String.append "Korean: "%string src);
                   EPrint (String.append "English: "%string tar);
                   EPrint (String.append "Predict: "%string pred);
                   EPrint "-------------------------"%string]));
      [reflexivity|].
    intros [[src tar] pred]. reflexivity.
  - intros i Hi.
    assert (Hslice : slice indices (i * seq_len) (i * seq_len + seq_len - 1)
                     = firstn (seq_len - 1) (skipn (i * seq_len) indices)).
    { unfold slice. f_equal. lia. }
    split; [exact Hslice|].
    rewrite Hslice, length_firstn, length_skipn, Hlen. nia.
Qed.

End BatchDecoding.

(** C10 on a toy file of two lines with [seq_len = 3]: the model predicts
    the ids 3, 2, 3 in every row; the slices decoded are [3, 2] and [3, 2],
    the third position of each row is left out, and each prediction is the
    piece before the end token. *)
Lemma batch_transform_decodes_row_prefixes_witness :
  Toy.batch_transform 2
  = ([EForward false [[3; 4; 0]; [3; 4; 0]]%Z [[1; 0; 0]; [1; 0; 0]]%Z 0;
      EPrint "Korean: ab"%string; EPrint "English: ab"%string;
      EPrint "Predict: a"%string; EPrint "-------------------------"%string;
      EPrint "Korean: ab"%string; EPrint "English: ab"%string;
      EPrint "Predict: a"%string; EPrint "-------------------------"%string],
     Ok tt)
  /\ slice [3; 2; 3; 3; 2; 3]%Z (1 * 3) (1 * 3 + 3 - 1) = [3; 2]%Z.
Proof.
  destruct (@batch_transform_decodes_row_prefixes 3 Toy.voc Toy.voc Toy.model
              Toy.clean (Toy.lines 2) (Toy.lines 2) [3; 2; 3; 3; 2; 3]%Z 2)
    as [Hrun Hrows].
  - lia.
  - discriminate.
  - reflexivity.
  - reflexivity.
  - split.
    + unfold Toy.batch_transform. rewrite Hrun. reflexivity.
    + destruct (Hrows 1) as [Hslice _]; [lia|]. rewrite Hslice. reflexivity.
Defined.
